(** * 5ire: provider adapters of the chat engine

    A shallow embedding of the message-building code of
    [AnthropicChatService], [OllamaChatService] and [DeepSeekChatService].

    The adapters work on untyped JavaScript objects ([toolResult: any],
    objects cast [as IChatRequestMessage]), so the embedding keeps one
    universe of JavaScript values and writes the adapters over it.
    Objects keep their keys in insertion order, as JavaScript does.
    Numbers are restricted to integers; strings are sequences of
    characters compared by value. *)

From Stdlib Require Import String Ascii List ZArith Bool Lia Permutation.
From Stdlib Require Import DecimalString.
Import ListNotations.
Open Scope string_scope.
Open Scope list_scope.

(** ** JavaScript values *)

#[local] Set Warnings "-register-all".

Inductive JsValue : Type :=
| JUndefined
| JNull
| JBool (b : bool)
| JNum (n : Z)
| JStr (s : string)
| JArr (items : list JsValue)
| JObj (fields : list (string * JsValue)).

(** ** Outcome of a call: a value, or a thrown error (a rejected promise) *)

Inductive Result (A : Type) : Type :=
| Ok (a : A)
| Throw (e : string).

Arguments Ok {A} a.
Arguments Throw {A} e.

Definition bind {A B : Type} (r : Result A) (k : A -> Result B) : Result B :=
  match r with
  | Ok a => k a
  | Throw e => Throw e
  end.

Notation "x <- e ;; k" := (bind e (fun x => k))
  (at level 61, e at next level, right associativity).

(** [await Promise.all(xs.map(f))]: the results in the order of [xs]; the
    call is rejected as soon as one of them is. *)
Fixpoint mapM {A B : Type} (f : A -> Result B) (xs : list A) : Result (list B) :=
  match xs with
  | [] => Ok []
  | x :: r => y <- f x ;; ys <- mapM f r ;; Ok (y :: ys)
  end.

Definition isOk {A : Type} (r : Result A) : bool :=
  match r with Ok _ => true | Throw _ => false end.

(** ** The operations of the language that the adapters use *)

Module Js.

(** [Boolean(v)], the test of [if (v)], [!v], [a || b] and [filter(Boolean)]. *)
Definition truthy (v : JsValue) : bool :=
  match v with
  | JUndefined | JNull => false
  | JBool b => b
  | JNum n => negb (Z.eqb n 0)
  | JStr s => negb (String.eqb s "")
  | JArr _ | JObj _ => true
  end.

Definition typeof (v : JsValue) : string :=
  match v with
  | JUndefined => "undefined"
  | JNull => "object"
  | JBool _ => "boolean"
  | JNum _ => "number"
  | JStr _ => "string"
  | JArr _ | JObj _ => "object"
  end.

Definition isString (v : JsValue) : bool := String.eqb (typeof v) "string".

Definition nullish (v : JsValue) : bool :=
  match v with JUndefined | JNull => true | _ => false end.

(** [a ?? b] *)
Definition coalesce (a b : JsValue) : JsValue := if nullish a then b else a.

(** [a || b] *)
Definition or (a b : JsValue) : JsValue := if truthy a then a else b.

Fixpoint lookup (k : string) (fs : list (string * JsValue)) : JsValue :=
  match fs with
  | [] => JUndefined
  | (k', v) :: r => if String.eqb k k' then v else lookup k r
  end.

(** [v.k] once [v] is known not to be [null] or [undefined].  The names the
    adapters read are data properties of objects only; none of them is a
    built-in of strings, arrays, numbers or booleans, where the read gives
    [undefined]. *)
Definition get (v : JsValue) (k : string) : JsValue :=
  match v with
  | JObj fs => lookup k fs
  | _ => JUndefined
  end.

(** [v.k]: a TypeError on [null] and [undefined]. *)
Definition prop (v : JsValue) (k : string) : Result JsValue :=
  if nullish v then Throw "TypeError" else Ok (get v k).

(** [v?.k] *)
Definition optProp (v : JsValue) (k : string) : JsValue :=
  if nullish v then JUndefined else get v k.

Fixpoint hasKey (k : string) (fs : list (string * JsValue)) : bool :=
  match fs with
  | [] => false
  | (k', _) :: r => String.eqb k k' || hasKey k r
  end.

(** ["k" in v] for an object [v] *)
Definition has (v : JsValue) (k : string) : bool :=
  match v with
  | JObj fs => hasKey k fs
  | _ => false
  end.

(** [o.k = v] on the fields of an object: an existing key keeps its place,
    a new key goes last. *)
Fixpoint assign (k : string) (v : JsValue) (fs : list (string * JsValue))
  : list (string * JsValue) :=
  match fs with
  | [] => [(k, v)]
  | (k', v') :: r =>
      if String.eqb k k' then (k', v) :: r else (k', v') :: assign k v r
  end.

Definition set (o : JsValue) (k : string) (v : JsValue) : JsValue :=
  match o with
  | JObj fs => JObj (assign k v fs)
  | _ => o
  end.

Definition string_of_Z (n : Z) : string :=
  NilZero.string_of_int (Z.to_int n).

(** [String(v)], and the conversion [join] applies to each element *)
Fixpoint ToString (v : JsValue) : string :=
  match v with
  | JUndefined => "undefined"
  | JNull => "null"
  | JBool true => "true"
  | JBool false => "false"
  | JNum n => string_of_Z n
  | JStr s => s
  | JArr l =>
      String.concat ","
        (map (fun x => match x with
                       | JUndefined | JNull => ""
                       | _ => ToString x
                       end) l)
  | JObj _ => "[object Object]"
  end.

Definition joinItem (v : JsValue) : string :=
  match v with
  | JUndefined | JNull => ""
  | _ => ToString v
  end.

(** [l.join(sep)] *)
Definition join (sep : string) (l : list JsValue) : string :=
  String.concat sep (map joinItem l).

(** [s.startsWith(p)] *)
Definition startsWith (p s : string) : bool := String.prefix p s.

(** [s.split(sep)] for a separator that is not empty.  [skip] counts the
    characters of a separator just met that are still to be passed over. *)
Fixpoint splitFrom (sep : string) (skip : nat) (cur s : string) : list string :=
  match s with
  | EmptyString => [cur]
  | String c r =>
      match skip with
      | S k => splitFrom sep k cur r
      | O =>
          if String.prefix sep s
          then cur :: splitFrom sep (String.length sep - 1) "" r
          else splitFrom sep 0 (cur ++ String c "")%string r
      end
  end.

Definition split (sep s : string) : list string := splitFrom sep 0 "" s.

(** [xs[i]] on an array of strings *)
Definition at_ (xs : list string) (i : nat) : JsValue :=
  match nth_error xs i with
  | Some s => JStr s
  | None => JUndefined
  end.

(** [xs.includes(v)] on an array of strings *)
Definition includes (xs : list string) (v : JsValue) : bool :=
  match v with
  | JStr s => existsb (String.eqb s) xs
  | _ => false
  end.

End Js.

(** ** Text constants *)

Definition nl : string := String (ascii_of_nat 10) "".

(** The double quote character *)
Definition dquote : string := String (ascii_of_nat 34) "".

(** The separator ['\n\n\n'] *)
Definition nl3 : string := (nl ++ nl ++ nl)%string.

(** ** Collaborators

    What the adapters call and do not define: built-ins of the language,
    the tool host behind [window.electron.mcp], the converter of
    [intellichat/mcp/ContentBlockConverter], the helpers of [utils/util] and
    [utils/validators], the network, and the base classes
    [NextChatService] and [OpenAIChatService].  They are taken as they
    come; the theorems hold for each choice of them. *)

(** An item of [splitByImg(content)] *)
Record ImgItem : Type := {
  item_type : string;
  item_data : string;
  item_dataType : JsValue;
  item_mimeType : JsValue
}.

Record Host : Type := {
  (** [JSON.stringify(v)]: a string, or [undefined] *)
  JSON_stringify : JsValue -> JsValue;
  (** [JSON.parse(v)] *)
  JSON_parse : JsValue -> Result JsValue;
  (** [window.electron.mcp.readResource(serverKey, uri)] *)
  readResource : JsValue -> string -> Result JsValue;
  (** [MCPContentBlockConverter.convert(block, resolve)]: a
      [FinalContentBlock] *)
  MCP_convert : JsValue -> (string -> Result JsValue) -> Result JsValue;
  (** [MCPContentBlockConverter.contentBlockToLegacyMessageContent(item)] *)
  contentBlockToLegacyMessageContent : JsValue -> Result JsValue;
  (** The order in which concurrent callbacks that [push] after an [await]
      reach their [push]: a rearrangement of the order they were started in *)
  completionOrder : list JsValue -> list JsValue;
  (** [splitByImg(content)] *)
  splitByImg : string -> list ImgItem;
  (** [getBase64(url)] *)
  getBase64 : string -> Result string;
  (** [fetch(url)], [response.blob()] and [FileReader.readAsDataURL]: the
      body as a data URL *)
  fetchAsDataURL : string -> Result string;
  (** [fetch(url)], [res.arrayBuffer()] and [btoa] of the bytes *)
  fetchAsBase64 : string -> Result string;
  (** [stripHtmlTags(content)] *)
  stripHtmlTags : string -> string;
  (** [isBlank(v)] *)
  isBlank : JsValue -> bool;
  (** [removeAdditionalProperties(schema)] *)
  removeAdditionalProperties : JsValue -> JsValue;
  (** [super.makeMessages(messages, msgId)] of [OpenAIChatService] *)
  OpenAI_makeMessages : list JsValue -> Result (list JsValue)
}.

(** Concurrent callbacks finish in some order: the same elements. *)
Definition fairOrder (E : Host) : Prop :=
  forall l, Permutation l (completionOrder E l).

(** [ITool] of [intellichat/readers/IChatReader] *)
Record ITool : Type := {
  id : string;
  name : string;
  args : JsValue
}.

(** What the adapters read from [this.context] and from the base class
    [NextChatService] *)
Record Context : Type := {
  (** the truth value of [getModel().capabilities.vision?.enabled] *)
  visionEnabled : bool;
  (** [getCtxMessages(msgId)] *)
  ctxMessages : list JsValue;
  (** [getModelName()] *)
  modelName : JsValue;
  (** [getTemperature()] *)
  temperature : JsValue;
  (** [getSystemMessage()] *)
  systemMessage : JsValue;
  (** [getMaxTokens()] *)
  maxTokens : JsValue;
  (** [isToolsEnabled()] *)
  toolsEnabled : bool;
  (** [usedToolNames] *)
  usedToolNames : list string;
  (** [window.electron.mcp.listTools()] *)
  listTools : Result JsValue
}.

(** [v === s] for a string literal [s] *)
Definition isStr (v : JsValue) (s : string) : bool :=
  match v with
  | JStr s' => String.eqb s' s
  | _ => false
  end.

(** [xs.filter(f)] for a callback that may throw *)
Fixpoint filterM {A : Type} (f : A -> Result bool) (xs : list A) : Result (list A) :=
  match xs with
  | [] => Ok []
  | x :: r =>
      b <- f x ;; ys <- filterM f r ;; Ok (if b then x :: ys else ys)
  end.

(** [item.type === 'text'] for an item that is an object *)
Definition isTextBlock (item : JsValue) : bool :=
  isStr (Js.get item "type") "text".

(** [item.type === 'text'] as the callback of [every] evaluates it: the
    read of [item.type] throws on [null] and [undefined]. *)
Definition typeIsText (item : JsValue) : Result bool :=
  type <- Js.prop item "type" ;; Ok (isStr type "text").

(** [xs.every(f)] for a callback that may throw: the elements are tested in
    order and the test stops at the first that fails. *)
Fixpoint everyM {A : Type} (f : A -> Result bool) (xs : list A) : Result bool :=
  match xs with
  | [] => Ok true
  | x :: r => b <- f x ;; if b then everyM f r else Ok false
  end.

(** The callback handed to the converter, the same in both adapters:
    [(uri) => window.electron.mcp.readResource(tool.name.split('--')[0], uri)
       .then((result) => result.isError ? [] : result.contents)] *)
Definition resolveResource (E : Host) (tool : ITool) (uri : string)
  : Result JsValue :=
  result <- readResource E (Js.at_ (Js.split "--" (name tool)) 0) uri ;;
  isError <- Js.prop result "isError" ;;
  if Js.truthy isError then Ok (JArr []) else Ok (Js.get result "contents").

(** * AnthropicChatService *)

Module Anthropic.

Definition placeholderNote : string :=
  "NOTE: This tool output is only a placeholder. See the following parts of this message for the actual tool result. Please use that for processing.".

Definition toolResultBlock (tool : ITool) (content : JsValue) : JsValue :=
  JObj [("type", JStr "tool_result");
        ("tool_use_id", JStr (id tool));
        ("content", content)].

Definition toolUseBlock (tool : ITool) : JsValue :=
  JObj [("type", JStr "tool_use");
        ("id", JStr (id tool));
        ("name", JStr (name tool));
        ("input", Js.coalesce (args tool) (JObj []))].

Definition textBlock (text : JsValue) : JsValue :=
  JObj [("type", JStr "text"); ("text", text)].

Definition message (role : string) (content : JsValue) : JsValue :=
  JObj [("role", JStr role); ("content", content)].

(** [makeToolMessages(tool, toolResult, content?)] *)
Definition makeToolMessages (E : Host) (tool : ITool) (toolResult : JsValue)
  (content : option string) : Result (list JsValue) :=
  let parts0 :=
    if Js.isString toolResult then [toolResultBlock tool toolResult] else [] in
  isError <- Js.prop toolResult "isError" ;;
  let parts1 :=
    if Js.truthy isError
    then parts0 ++
         [toolResultBlock tool (JSON_stringify E (Js.get toolResult "error"))]
    else parts0 in
  parts <-
    (if negb (Js.truthy isError) && Js.truthy (Js.get toolResult "content")
     then
       let contentParts :=
         match Js.get toolResult "content" with
         | JArr l => l
         | _ => []
         end in
       blocks <- mapM (fun block => MCP_convert E block (resolveResource E tool))
                      contentParts ;;
       let convertedBlocks := completionOrder E blocks in
       allText <- everyM typeIsText convertedBlocks ;;
       if allText
       then Ok (parts1 ++
                [toolResultBlock tool
                   (JStr (Js.join nl3
                            (map (fun item => Js.get item "text")
                                 convertedBlocks)))])
       else
         legacy <- mapM (contentBlockToLegacyMessageContent E) convertedBlocks ;;
         Ok (parts1 ++ toolResultBlock tool (JStr placeholderNote) :: legacy)
     else Ok parts1) ;;
  let toolUse := toolUseBlock tool in
  let assistantContent :=
    match content with
    | Some text =>
        if Js.truthy (JStr text)
        then [textBlock (JStr text); toolUse]
        else [toolUse]
    | None => [toolUse]
    end in
  Ok [message "assistant" (JArr assistantContent);
      message "user" (JArr parts)].

(** [convertPromptContent(content)] *)
Definition convertPromptContent (C : Context) (E : Host) (content : string)
  : Result JsValue :=
  if visionEnabled C then
    let items := splitByImg E content in
    result <-
      mapM (fun item =>
              if String.eqb (item_type item) "image" then
                data <-
                  (if isStr (item_dataType item) "URL"
                   then d <- getBase64 E (item_data item) ;; Ok (JStr d)
                   else Ok (Js.at_ (Js.split "," (item_data item)) 1)) ;;
                Ok (JObj [("type", JStr "image");
                          ("source",
                           JObj [("type", JStr "base64");
                                 ("media_type", item_mimeType item);
                                 ("data", data)])])
              else if String.eqb (item_type item) "text" then
                Ok (textBlock (JStr (item_data item)))
              else Throw "Unknown message type")
           items ;;
    Ok (JArr result)
  else Ok (JStr (stripHtmlTags E content)).

(** The callback of the [reduce] over the context messages: the messages
    one stored exchange contributes *)
Definition ctxToMessages (E : Host) (msg : JsValue) : Result (list JsValue) :=
  structuredPrompts <- Js.prop msg "structuredPrompts" ;;
  msgs <-
    (if Js.truthy structuredPrompts then
       match JSON_parse E structuredPrompts with
       | Throw _ => Throw "Failed to parse structuredPrompts"
       | Ok (JArr strucuredPrompts) =>
           mapM (fun m =>
                   role <- Js.prop m "role" ;;
                   Ok (JObj [("role", role); ("content", Js.get m "content")]))
                strucuredPrompts
       | Ok _ => Throw "TypeError"
       end
     else Ok [message "user" (Js.get msg "prompt")]) ;;
  Ok (msgs ++ [message "assistant" (Js.get msg "reply")]).

Definition audioWarning : string :=
  "Warning: Audio content type not supported, converting to empty text".

Definition unknownWarning (type : JsValue) : string :=
  ("Warning: Unknown content type '" ++ Js.ToString type
     ++ "', converting to empty text")%string.

(** The callback of [content.map]: the converted part and what it passes to
    [debug] *)
Definition convertItem (item : JsValue) : Result (JsValue * list string) :=
  type <- Js.prop item "type" ;;
  if isStr type "text" then
    Ok (textBlock (Js.get item "text"), [])
  else if isStr type "image_url" then
    let url := Js.or (Js.optProp (Js.get item "image_url") "url") (JStr "") in
    Ok (JObj [("type", JStr "image");
              ("source", JObj [("type", JStr "url"); ("url", url)])], [])
  else if isStr type "audio" then
    Ok (textBlock (JStr ""), [audioWarning])
  else
    Ok (textBlock (JStr ""), [unknownWarning type]).

(** The callback of [messages.map] *)
Definition processMessage (C : Context) (E : Host) (msg : JsValue)
  : Result (JsValue * list string) :=
  role <- Js.prop msg "role" ;;
  if isStr role "tool" then
    Ok (JObj [("content", JSON_stringify E (Js.get msg "content"));
              ("type", JStr "tool_result");
              ("tool_use_id", Js.get msg "tool_call_id")], [])
  else if isStr role "assistant" && Js.truthy (Js.get msg "tool_calls") then
    Ok (msg, [])
  else
    match Js.get msg "content" with
    | JStr content =>
        c <- convertPromptContent C E content ;;
        Ok (JObj [("role", role); ("content", c)], [])
    | JArr content =>
        items <- mapM convertItem content ;;
        Ok (JObj [("role", role); ("content", JArr (map fst items))],
            concat (map snd items))
    | _ => Ok (JObj [("role", role); ("content", JStr "")], [])
    end.

(** [makeMessages(messages, msgId)]: the messages, and the lines passed to
    [debug] on the way *)
Definition makeMessages (C : Context) (E : Host) (messages : list JsValue)
  : Result (list JsValue * list string) :=
  result <- mapM (ctxToMessages E) (ctxMessages C) ;;
  processedMessages <- mapM (processMessage C E) messages ;;
  Ok (concat result ++ map fst processedMessages,
      concat (map snd processedMessages)).

(** [makeTool(tool)] *)
Definition makeTool (E : Host) (tool : JsValue) : Result JsValue :=
  name <- Js.prop tool "name" ;;
  let inputSchema := Js.get tool "inputSchema" in
  type <- Js.prop inputSchema "type" ;;
  Ok (JObj [("name", name);
            ("description", Js.get tool "description");
            ("input_schema",
             JObj [("type", type);
                   ("properties",
                    Js.or (removeAdditionalProperties E
                             (Js.get inputSchema "properties"))
                          (JObj []));
                   ("required",
                    Js.or (Js.get inputSchema "required") (JArr []))])]).

Definition toolChoice : JsValue :=
  JObj [("type", JStr "auto"); ("disable_parallel_tool_use", JBool true)].

(** [makePayload(messages, msgId)] *)
Definition makePayload (C : Context) (E : Host) (messages : list JsValue)
  : Result JsValue :=
  msgs <- makeMessages C E messages ;;
  let payload0 :=
    JObj [("model", modelName C);
          ("messages", JArr (fst msgs));
          ("temperature", temperature C);
          ("stream", JBool true)] in
  let payload1 :=
    if negb (isBlank E (systemMessage C))
    then Js.set payload0 "system" (systemMessage C)
    else payload0 in
  let payload2 :=
    if Js.truthy (maxTokens C)
    then Js.set payload1 "max_tokens" (maxTokens C)
    else payload1 in
  payload3 <-
    (if toolsEnabled C then
       tools <- listTools C ;;
       if Js.truthy tools then
         match Js.get tools "tools" with
         | JArr all =>
             unused <-
               filterM (fun tool =>
                          n <- Js.prop tool "name" ;;
                          Ok (negb (Js.includes (usedToolNames C) n)))
                       all ;;
             unusedTools <- mapM (makeTool E) unused ;;
             if (0 <? List.length unusedTools)%nat then
               Ok (Js.set (Js.set payload2 "tools" (JArr unusedTools))
                          "tool_choice" toolChoice)
             else Ok payload2
         | _ => Throw "TypeError"
         end
       else Ok payload2
     else Ok payload2) ;;
  let payload4 :=
    if Js.truthy (maxTokens C)
    then Js.set payload3 "max_tokens" (maxTokens C)
    else payload3 in
  Ok payload4.

End Anthropic.

(** * OllamaChatService *)

Module Ollama.

Definition placeholderNote : string :=
  ("NOTE: This tool output is only a placeholder. The actual result from the tool is included in the next message with role "
     ++ dquote ++ "user" ++ dquote ++ ". Please use that for processing.")%string.

Definition textPart (text : JsValue) : JsValue :=
  JObj [("type", JStr "text"); ("text", text)].

(** [makeToolMessages(tool, toolResult)] *)
Definition makeToolMessages (E : Host) (tool : ITool) (toolResult : JsValue)
  : Result (list JsValue) :=
  let content0 :=
    if Js.isString toolResult then [textPart toolResult] else [] in
  isError <- Js.prop toolResult "isError" ;;
  let content1 :=
    if Js.truthy isError
    then content0 ++ [textPart (JSON_stringify E (Js.get toolResult "error"))]
    else content0 in
  r <-
    (if negb (Js.truthy isError) && Js.truthy (Js.get toolResult "content")
     then
       let content :=
         match Js.get toolResult "content" with
         | JArr l => l
         | _ => []
         end in
       convertedBlocks <-
         mapM (fun block => MCP_convert E block (resolveResource E tool))
              content ;;
       allText <- everyM typeIsText convertedBlocks ;;
       if allText
       then
         legacy <- mapM (contentBlockToLegacyMessageContent E) convertedBlocks ;;
         Ok (content1 ++ legacy, None)
       else
         let note :=
           textPart (JSON_stringify E
                       (JObj [("message", JStr placeholderNote)])) in
         legacy <- mapM (contentBlockToLegacyMessageContent E) convertedBlocks ;;
         Ok (content1 ++ [note],
             Some (JObj [("role", JStr "user"); ("content", JArr legacy)]))
     else Ok (content1, None)) ;;
  let '(toolMessageContent, supplement) := r in
  let result :=
    [JObj [("role", JStr "assistant");
           ("tool_calls",
            JArr [JObj [("id", JStr (id tool));
                        ("type", JStr "function");
                        ("function",
                         JObj [("arguments", args tool);
                               ("name", JStr (name tool))])]])];
     JObj [("role", JStr "tool");
           ("name", JStr (name tool));
           ("content", JArr toolMessageContent);
           ("tool_call_id", JStr (id tool))]] in
  match supplement with
  | Some s => Ok (result ++ [s])
  | None => Ok result
  end.

(** [convertPromptContent(content)].  A failed fetch is caught inside the
    callback and gives [null], which the filter that follows removes. *)
Definition convertPromptContent (C : Context) (E : Host) (content : string)
  : JsValue :=
  if visionEnabled C then
    let items := splitByImg E content in
    let textItems :=
      filter (fun item => String.eqb (item_type item) "text") items in
    let textContent := String.concat nl (map item_data textItems) in
    let result := JObj [("content", Js.or (JStr textContent) (JStr ""))] in
    let imageItems :=
      filter (fun item => String.eqb (item_type item) "image") items in
    let localImages :=
      map (fun i =>
             let base64Data := Js.split "," (item_data i) in
             if (List.length base64Data <? 2)%nat
             then JStr (item_data i)
             else Js.at_ base64Data 1)
          (filter (fun item => isStr (item_dataType item) "base64")
                  imageItems) in
    let remoteImageItems :=
      filter (fun item => isStr (item_dataType item) "URL") items in
    if (0 <? List.length remoteImageItems)%nat then
      let base64Images :=
        map (fun item =>
               match fetchAsDataURL E (item_data item) with
               | Ok base64 => Js.at_ (Js.split "," base64) 1
               | Throw _ => JNull
               end)
            remoteImageItems in
      let validBase64Images :=
        filter (fun img => match img with JNull => false | _ => true end)
               base64Images in
      if (0 <? List.length validBase64Images)%nat
      then Js.set result "images" (JArr (localImages ++ validBase64Images))
      else result
    else if (0 <? List.length localImages)%nat
    then Js.set result "images" (JArr localImages)
    else result
  else JObj [("content", JStr (stripHtmlTags E content))].

(** The callback of [content.flatMap]: what one part adds to [images] *)
Definition imagesOfItem (item : JsValue) : Result (list JsValue) :=
  image_url <- Js.prop item "image_url" ;;
  if Js.truthy (Js.optProp image_url "url")
  then Ok [Js.get image_url "url"]
  else
    match Js.or (Js.get item "images") (JArr []) with
    | JArr l => Ok l
    | v => Ok [v]
    end.

(** The callback of [images.map] under vision: what replaces
    [images[index]] *)
Definition encodeImage (E : Host) (image : JsValue) : Result JsValue :=
  match image with
  | JStr s =>
      if Js.startsWith "data:" s then Ok (Js.at_ (Js.split "," s) 1)
      else if Js.startsWith "http:" s || Js.startsWith "https:" s
              || Js.startsWith "blob:" s
      then
        match fetchAsBase64 E s with
        | Ok b => Ok (JStr b)
        | Throw _ => Ok (JStr "")
        end
      else Ok (JStr "")
  | _ => Throw "TypeError"
  end.

(** What the callback of [result.map] does with one message *)
Inductive Pushed : Type :=
| NotPushed
| PushedAtOnce (m : JsValue)
| PushedAfterAwait (m : JsValue).

(** The callback of [result.map] *)
Definition processMessage (C : Context) (E : Host) (message : JsValue)
  : Result Pushed :=
  content <- Js.prop message "content" ;;
  match content with
  | JStr _ => Ok (PushedAtOnce message)
  | JArr parts =>
      textParts <-
        filterM (fun item => t <- Js.prop item "type" ;; Ok (isStr t "text"))
                parts ;;
      let texts := map (fun item => Js.get item "text") textParts in
      imgs <- mapM imagesOfItem parts ;;
      let images := concat imgs in
      if visionEnabled C then
        encoded <- mapM (encodeImage E) images ;;
        Ok (PushedAfterAwait
              (Js.set (Js.set message "content" (JStr (Js.join nl3 texts)))
                      "images" (JArr (filter Js.truthy encoded))))
      else
        Ok (PushedAtOnce
              (Js.set (Js.set message "content" (JStr (Js.join nl3 texts)))
                      "images" JUndefined))
  | _ => Ok NotPushed
  end.

Definition atOnce (p : Pushed) : list JsValue :=
  match p with PushedAtOnce m => [m] | _ => [] end.

Definition afterAwait (p : Pushed) : list JsValue :=
  match p with PushedAfterAwait m => [m] | _ => [] end.

(** [makeMessages(messages, msgId)].  The callbacks start in the order of
    [result]; one that reaches its [push] without an [await] pushes before
    the next starts, the others push once their fetches are done. *)
Definition makeMessages (C : Context) (E : Host) (messages : list JsValue)
  : Result (list JsValue) :=
  result <- OpenAI_makeMessages E messages ;;
  pushed <- mapM (processMessage C E) result ;;
  Ok (flat_map atOnce pushed ++ completionOrder E (flat_map afterAwait pushed)).

End Ollama.

(** * DeepSeekChatService *)

Module DeepSeek.

(** The callback of [result.map] *)
Definition formatMessage (msg : JsValue) : Result JsValue :=
  content <- Js.prop msg "content" ;;
  match content with
  | JStr _ => Ok msg
  | JArr parts =>
      texts <- mapM (fun part =>
                       text <- Js.prop part "text" ;;
                       Ok (Js.or text (JStr "")))
                    parts ;;
      Ok (Js.set msg "content" (JStr (Js.join nl texts)))
  | _ => Ok JNull
  end.

(** [makeMessages(messages, msgId)] *)
Definition makeMessages (E : Host) (messages : list JsValue)
  : Result (list JsValue) :=
  result <- OpenAI_makeMessages E messages ;;
  formated <- mapM formatMessage result ;;
  Ok (filter Js.truthy formated).

End DeepSeek.

(** * The claims in their own words

    Definitions that follow the wording of a claim, to be compared with the
    code above. *)

Module Claimed.

(** The text of a part: its [text] field, the empty string for a part
    without text *)
Definition partText (part : JsValue) : string :=
  if Js.truthy (Js.get part "text")
  then Js.ToString (Js.get part "text")
  else "".

(** What the DeepSeek adapter is said to make of one message: a message
    with string content is kept, one with array content has the texts of
    its parts joined by newlines, any other is dropped. *)
Definition deepseekFlattened (msg : JsValue) : list JsValue :=
  match Js.get msg "content" with
  | JStr _ => [msg]
  | JArr parts =>
      [Js.set msg "content" (JStr (String.concat nl (map partText parts)))]
  | _ => []
  end.

(** The remote images of a prompt that the Ollama adapter could fetch, in
    the order of the prompt: the part of each data URL after its comma *)
Definition fetchedImages (E : Host) (items : list ImgItem) : list JsValue :=
  flat_map (fun item =>
              match fetchAsDataURL E (item_data item) with
              | Ok dataUrl => [Js.at_ (Js.split "," dataUrl) 1]
              | Throw _ => []
              end)
           (filter (fun item => isStr (item_dataType item) "URL") items).

(** The inline images of a prompt: what follows the comma of the data URL,
    or the data as they are when there is no comma *)
Definition inlineImages (items : list ImgItem) : list JsValue :=
  map (fun item =>
         match Js.split "," (item_data item) with
         | _ :: base64 :: _ => JStr base64
         | _ => JStr (item_data item)
         end)
      (filter (fun item =>
                 String.eqb (item_type item) "image"
                 && isStr (item_dataType item) "base64") items).

(** What the Ollama adapter puts into [images] for one image string: the
    text between the first and the second comma of a [data:] URL, the
    base64 encoding of the body of an [http:], [https:] or [blob:] URL
    that could be fetched, and nothing when that is empty or missing or the
    string is of another form *)
Definition bareImage (E : Host) (image : string) : list JsValue :=
  if Js.startsWith "data:" image then
    match Js.split "," image with
    | _ :: base64 :: _ => if String.eqb base64 "" then [] else [JStr base64]
    | _ => []
    end
  else if Js.startsWith "http:" image || Js.startsWith "https:" image
          || Js.startsWith "blob:" image
  then
    match fetchAsBase64 E image with
    | Ok base64 => if String.eqb base64 "" then [] else [JStr base64]
    | Throw _ => []
    end
  else [].

End Claimed.

(** * Sample collaborators and inputs

    One concrete choice of the collaborators, on which the adapters can be
    run. *)

Module Sample.

(** [JSON.stringify] on values whose strings need no escaping *)
Fixpoint stringify (v : JsValue) : JsValue :=
  let text (x : JsValue) : string :=
    match stringify x with
    | JStr s => s
    | _ => "null"
    end in
  match v with
  | JUndefined => JUndefined
  | JNull => JStr "null"
  | JBool true => JStr "true"
  | JBool false => JStr "false"
  | JNum n => JStr (Js.string_of_Z n)
  | JStr s => JStr (dquote ++ s ++ dquote)%string
  | JArr l => JStr ("[" ++ String.concat "," (map text l) ++ "]")%string
  | JObj fs =>
      JStr ("{" ++
            String.concat ","
              (flat_map (fun kv =>
                           match stringify (snd kv) with
                           | JStr s => [(dquote ++ fst kv ++ dquote ++ ":" ++ s)%string]
                           | _ => []
                           end) fs)
            ++ "}")%string
  end.

(** A prompt with one remote image and one inline image *)
Definition promptText : string := "look at both pictures".

Definition remoteUrl : string := "https://example.com/a.png".
Definition otherUrl : string := "https://example.com/b.png".

Definition promptItems : list ImgItem :=
  [ {| item_type := "text"; item_data := "look";
       item_dataType := JUndefined; item_mimeType := JUndefined |};
    {| item_type := "image"; item_data := remoteUrl;
       item_dataType := JStr "URL"; item_mimeType := JStr "image/png" |};
    {| item_type := "image"; item_data := "data:image/png;base64,AAAA";
       item_dataType := JStr "base64"; item_mimeType := JStr "image/png" |};
    {| item_type := "image"; item_data := otherUrl;
       item_dataType := JStr "URL"; item_mimeType := JStr "image/png" |} ].

(** A host whose network reaches [otherUrl] and nothing else *)
Definition host : Host := {|
  JSON_stringify := stringify;
  JSON_parse := fun _ => Throw "SyntaxError";
  readResource := fun _ _ => Ok (JObj [("isError", JBool true)]);
  MCP_convert := fun block _ => Ok block;
  contentBlockToLegacyMessageContent := fun item => Ok item;
  completionOrder := fun l => l;
  splitByImg := fun content =>
    if String.eqb content promptText then promptItems
    else [ {| item_type := "text"; item_data := content;
              item_dataType := JUndefined; item_mimeType := JUndefined |} ];
  getBase64 := fun url =>
    if String.eqb url otherUrl then Ok "BBBB" else Throw "Failed to fetch";
  fetchAsDataURL := fun url =>
    if String.eqb url otherUrl then Ok "data:image/png;base64,BBBB"
    else Throw "Failed to fetch";
  fetchAsBase64 := fun url =>
    if String.eqb url otherUrl then Ok "BBBB" else Throw "Failed to fetch";
  stripHtmlTags := fun content => content;
  isBlank := fun v => negb (Js.truthy v);
  removeAdditionalProperties := fun schema => schema;
  OpenAI_makeMessages := fun messages => Ok messages
|}.

Definition tool : ITool :=
  {| id := "toolu_01"; name := "fs--read_file";
     args := JObj [("path", JStr "a.txt")] |}.

Definition textResult : JsValue :=
  JObj [("isError", JBool false);
        ("content", JArr [JObj [("type", JStr "text"); ("text", JStr "hello")]])].

Definition imageResult : JsValue :=
  JObj [("isError", JBool false);
        ("content",
         JArr [JObj [("type", JStr "text"); ("text", JStr "a chart")];
               JObj [("type", JStr "image"); ("data", JStr "AAAA");
                     ("mimeType", JStr "image/png")]])].

Definition errorResult : JsValue :=
  JObj [("isError", JBool true);
        ("error", JObj [("message", JStr "file not found")])].

(** A conversation as [OpenAIChatService] hands it on: a system message, a
    user message with text and image parts, and an assistant message that
    holds tool calls and no content *)
Definition conversation : list JsValue :=
  [JObj [("role", JStr "system"); ("content", JStr "be brief")];
   JObj [("role", JStr "user");
         ("content",
          JArr [JObj [("type", JStr "text"); ("text", JStr "what is this")];
                JObj [("type", JStr "image_url");
                      ("image_url",
                       JObj [("url", JStr "https://example.com/a.png")])];
                JObj [("type", JStr "text"); ("text", JStr "in one word")]])];
   JObj [("role", JStr "assistant");
         ("tool_calls", JArr [JObj [("id", JStr "call_1")]])]].

(** A user message with a text and four images: a remote one that cannot
    be fetched, a base64 string with no prefix, a data URL, and a remote
    one that can be fetched *)
Definition pictures : JsValue :=
  JObj [("role", JStr "user");
        ("content",
         JArr [JObj [("type", JStr "text"); ("text", JStr "compare these")];
               JObj [("type", JStr "image_url");
                     ("image_url", JObj [("url", JStr remoteUrl)])];
               JObj [("type", JStr "image_url");
                     ("image_url", JObj [("url", JStr "AAAA")])];
               JObj [("type", JStr "image_url");
                     ("image_url",
                      JObj [("url", JStr "data:image/png;base64,CCCC")])];
               JObj [("type", JStr "image_url");
                     ("image_url", JObj [("url", JStr otherUrl)])]])].

Definition context (vision tools : bool) : Context := {|
  visionEnabled := vision;
  ctxMessages := [];
  modelName := JStr "claude-3-5-sonnet";
  temperature := JNum 1;
  systemMessage := JStr "";
  maxTokens := JNum 1024;
  toolsEnabled := tools;
  usedToolNames := ["fs--read_file"];
  listTools :=
    Ok (JObj [("tools",
               JArr [JObj [("name", JStr "fs--read_file");
                           ("description", JStr "read a file");
                           ("inputSchema",
                            JObj [("type", JStr "object");
                                  ("properties", JObj []);
                                  ("required", JArr [])])];
                     JObj [("name", JStr "fs--list");
                           ("description", JStr "list a directory");
                           ("inputSchema",
                            JObj [("type", JStr "object")])]])])
|}.

End Sample.

(** * More sample inputs *)

Module Stored.

(** A context with two stored exchanges and no structured prompts *)
Definition context : Context := {|
  visionEnabled := false;
  ctxMessages :=
    [JObj [("prompt", JStr "hi"); ("reply", JStr "hello")];
     JObj [("prompt", JStr "2+2?"); ("reply", JStr "4")]];
  modelName := JStr "claude-3-5-sonnet";
  temperature := JNum 1;
  systemMessage := JStr "";
  maxTokens := JNum 1024;
  toolsEnabled := false;
  usedToolNames := [];
  listTools := Throw "unavailable"
|}.

(** A stored exchange whose structured prompts are cut off *)
Definition broken : JsValue :=
  JObj [("prompt", JStr "hi"); ("reply", JStr "hello");
        ("structuredPrompts", JStr "[{")].

Definition brokenContext : Context := {|
  visionEnabled := false;
  ctxMessages := [broken];
  modelName := JStr "claude-3-5-sonnet";
  temperature := JNum 1;
  systemMessage := JStr "";
  maxTokens := JNum 1024;
  toolsEnabled := false;
  usedToolNames := [];
  listTools := Throw "unavailable"
|}.

End Stored.

(** * Sample inputs with structured prompts and null blocks *)

Module Structured.

(** Stored structured prompts: one user message with an audio part *)
Definition prompts : JsValue :=
  JArr [JObj [("role", JStr "user");
              ("content",
               JArr [JObj [("type", JStr "audio"); ("data", JStr "AAAA")]])]].

(** Their JSON text, as the store holds it *)
Definition promptsJson : JsValue := Sample.stringify prompts.

(** [Sample.host] with a [JSON.parse] that reads that text *)
Definition host : Host := {|
  JSON_stringify := JSON_stringify Sample.host;
  JSON_parse := fun v =>
    match v, promptsJson with
    | JStr text, JStr json =>
        if String.eqb text json then Ok prompts else Throw "SyntaxError"
    | _, _ => Throw "SyntaxError"
    end;
  readResource := readResource Sample.host;
  MCP_convert := MCP_convert Sample.host;
  contentBlockToLegacyMessageContent :=
    contentBlockToLegacyMessageContent Sample.host;
  completionOrder := completionOrder Sample.host;
  splitByImg := splitByImg Sample.host;
  getBase64 := getBase64 Sample.host;
  fetchAsDataURL := fetchAsDataURL Sample.host;
  fetchAsBase64 := fetchAsBase64 Sample.host;
  stripHtmlTags := stripHtmlTags Sample.host;
  isBlank := isBlank Sample.host;
  removeAdditionalProperties := removeAdditionalProperties Sample.host;
  OpenAI_makeMessages := OpenAI_makeMessages Sample.host
|}.

(** A context whose one stored exchange has these structured prompts *)
Definition context : Context := {|
  visionEnabled := false;
  ctxMessages :=
    [JObj [("prompt", JStr "listen"); ("reply", JStr "ok");
           ("structuredPrompts", promptsJson)]];
  modelName := JStr "claude-3-5-sonnet";
  temperature := JNum 1;
  systemMessage := JStr "";
  maxTokens := JNum 1024;
  toolsEnabled := false;
  usedToolNames := [];
  listTools := Throw "unavailable"
|}.

(** An assistant message that holds a tool call and an audio part *)
Definition assistantWithAudio : JsValue :=
  JObj [("role", JStr "assistant");
        ("tool_calls", JArr [JObj [("id", JStr "call_1")]]);
        ("content",
         JArr [JObj [("type", JStr "audio"); ("data", JStr "AAAA")]])].

(** A tool message whose content holds an audio part *)
Definition toolWithAudio : JsValue :=
  JObj [("role", JStr "tool");
        ("content",
         JArr [JObj [("type", JStr "audio"); ("data", JStr "AAAA")]]);
        ("tool_call_id", JStr "call_1")].

(** [Sample.host] with a converter that returns [null] for every block *)
Definition nullConverter : Host := {|
  JSON_stringify := JSON_stringify Sample.host;
  JSON_parse := JSON_parse Sample.host;
  readResource := readResource Sample.host;
  MCP_convert := fun _ _ => Ok JNull;
  contentBlockToLegacyMessageContent :=
    contentBlockToLegacyMessageContent Sample.host;
  completionOrder := completionOrder Sample.host;
  splitByImg := splitByImg Sample.host;
  getBase64 := getBase64 Sample.host;
  fetchAsDataURL := fetchAsDataURL Sample.host;
  fetchAsBase64 := fetchAsBase64 Sample.host;
  stripHtmlTags := stripHtmlTags Sample.host;
  isBlank := isBlank Sample.host;
  removeAdditionalProperties := removeAdditionalProperties Sample.host;
  OpenAI_makeMessages := OpenAI_makeMessages Sample.host
|}.

End Structured.

(** * Properties *)

(** ** The language operations on small inputs *)

Example split_data_url :
  Js.split "," "data:image/png;base64,AAAA" = ["data:image/png;base64"; "AAAA"].
Proof. reflexivity. Qed.

Example split_server_key : Js.split "--" "fs--read--x" = ["fs"; "read"; "x"].
Proof. reflexivity. Qed.

Example split_no_separator : Js.split "," "AAAA" = ["AAAA"].
Proof. reflexivity. Qed.

Example split_empty_pieces : Js.split "," "a,,b," = ["a"; ""; "b"; ""].
Proof. reflexivity. Qed.

Example split_overlapping_separator : Js.split "--" "a---b" = ["a"; "-b"].
Proof. reflexivity. Qed.

Example join_texts :
  Js.join "," [JStr "a"; JUndefined; JNum 12; JNull; JStr "b"] = "a,,12,,b".
Proof. reflexivity. Qed.

(** ** General lemmas *)

Lemma get_defined_is_object (v : JsValue) (k : string) :
  Js.get v k <> JUndefined -> exists fs, v = JObj fs.
Proof.
  destruct v; simpl; try congruence.
  intros _. eexists; reflexivity.
Qed.

Lemma get_array_prop (v : JsValue) (k k' : string) (l : list JsValue) :
  Js.get v k = JArr l -> Js.prop v k' = Ok (Js.get v k').
Proof.
  intros H. destruct v; simpl in H; try discriminate. reflexivity.
Qed.



Lemma mapM_pure {A B : Type} (f : A -> Result B) (g : A -> B) (l : list A) :
  (forall x, In x l -> f x = Ok (g x)) -> mapM f l = Ok (map g l).
Proof.
  induction l as [|x r IH]; intros H; simpl.
  - reflexivity.
  - rewrite (H x (or_introl eq_refl)). simpl.
    rewrite IH by (intros y Hy; apply H; right; exact Hy).
    reflexivity.
Qed.

Lemma mapM_length {A B : Type} (f : A -> Result B) (l : list A) (l' : list B) :
  mapM f l = Ok l' -> List.length l' = List.length l.
Proof.
  revert l'. induction l as [|x r IH]; intros l' H; simpl in H.
  - injection H as <-. reflexivity.
  - destruct (f x) as [y|e]; simpl in H; [|discriminate].
    destruct (mapM f r) as [ys|e]; simpl in H; [|discriminate].
    injection H as <-. simpl. f_equal. apply IH. reflexivity.
Qed.

Lemma mapM_app {A B : Type} (f : A -> Result B) (l1 l2 : list A)
  (r1 r2 : list B) :
  mapM f l1 = Ok r1 -> mapM f l2 = Ok r2 -> mapM f (l1 ++ l2) = Ok (r1 ++ r2).
Proof.
  revert r1. induction l1 as [|x r IH]; intros r1 H1 H2; simpl in *.
  - injection H1 as <-. exact H2.
  - destruct (f x) as [y|e]; simpl in *; [|discriminate].
    destruct (mapM f r) as [ys|e]; simpl in *; [|discriminate].
    injection H1 as <-. rewrite (IH ys eq_refl H2). reflexivity.
Qed.

Lemma mapM_In {A B : Type} (f : A -> Result B) (l : list A) (l' : list B)
  (x : A) :
  mapM f l = Ok l' -> In x l -> exists y, f x = Ok y /\ In y l'.
Proof.
  revert l'. induction l as [|a r IH]; intros l' H Hin; simpl in *.
  - contradiction.
  - destruct (f a) as [b|e] eqn:Hfa; simpl in H; [|discriminate].
    destruct (mapM f r) as [ys|e]; simpl in H; [|discriminate].
    injection H as <-. destruct Hin as [<-|Hin].
    + exists b. split; [exact Hfa | left; reflexivity].
    + destruct (IH ys eq_refl Hin) as [y [Hy Hiny]].
      exists y. split; [exact Hy | right; exact Hiny].
Qed.

Lemma filterM_In {A : Type} (f : A -> Result bool) (l l' : list A) (x : A) :
  filterM f l = Ok l' -> In x l' -> In x l /\ f x = Ok true.
Proof.
  revert l'. induction l as [|a r IH]; intros l' H Hin; simpl in H.
  - injection H as <-. contradiction.
  - destruct (f a) as [b|e] eqn:Hfa; simpl in H; [|discriminate].
    destruct (filterM f r) as [ys|e]; simpl in H; [|discriminate].
    injection H as <-. destruct b.
    + destruct Hin as [<-|Hin].
      * split; [left; reflexivity | exact Hfa].
      * destruct (IH ys eq_refl Hin). split; [right|]; assumption.
    + destruct (IH ys eq_refl Hin). split; [right|]; assumption.
Qed.

Lemma isTextBlock_object (item : JsValue) :
  isTextBlock item = true -> Js.nullish item = false.
Proof.
  destruct item; try discriminate; reflexivity.
Qed.

Lemma forallb_text_objects (l : list JsValue) :
  forallb isTextBlock l = true ->
  Forall (fun item => Js.nullish item = false) l.
Proof.
  intros H. apply Forall_forall. intros item Hin.
  apply isTextBlock_object. rewrite forallb_forall in H. exact (H item Hin).
Qed.

(** On objects [every] throws nothing and is the plain test of all. *)
Lemma everyM_objects (l : list JsValue) :
  Forall (fun item => Js.nullish item = false) l ->
  everyM typeIsText l = Ok (forallb isTextBlock l).
Proof.
  induction 1 as [|item r Hitem _ IH]; cbn [everyM forallb].
  - reflexivity.
  - unfold typeIsText at 1. unfold Js.prop. rewrite Hitem. cbn [bind].
    change (isStr (Js.get item "type") "text") with (isTextBlock item).
    destruct (isTextBlock item); [exact IH | reflexivity].
Qed.

Lemma everyM_all_text (l : list JsValue) :
  forallb isTextBlock l = true -> everyM typeIsText l = Ok true.
Proof.
  intros H. rewrite (everyM_objects l (forallb_text_objects l H)), H.
  reflexivity.
Qed.

Lemma forallb_Permutation {A : Type} (f : A -> bool) (l l' : list A) :
  Permutation l l' -> forallb f l = forallb f l'.
Proof.
  induction 1; simpl.
  - reflexivity.
  - rewrite IHPermutation. reflexivity.
  - destruct (f x), (f y); reflexivity.
  - congruence.
Qed.

(** ** Tool messages *)

(** A tool result that has a truthy [content] or [isError] is an object:
    the reads of [makeToolMessages] go through and it is no string. *)
Ltac tool_result_is_object H :=
  match type of H with
  | Js.get ?v _ = _ =>
      let fs := fresh "fs" in
      destruct (get_defined_is_object v _ ltac:(rewrite H; discriminate))
        as [fs ->]
  | Js.truthy (Js.get ?v ?k) = true =>
      let fs := fresh "fs" in
      destruct (get_defined_is_object v k
                  ltac:(intros Hu; rewrite Hu in H; discriminate))
        as [fs ->]
  end.

(** C2. An Anthropic tool result with [isError] false and a single block that
    converts to a text block, with no preceding text, gives exactly two
    messages: the assistant message with one [tool_use] block carrying the
    id, the name and the args of the tool ([{}] when the tool has no args),
    and the user message with one [tool_result] block carrying the same id
    and the text as a plain string. *)
Theorem anthropic_single_text_block
  (E : Host) (tool : ITool) (toolResult block converted : JsValue)
  (text : string) :
  fairOrder E ->
  Js.get toolResult "isError" = JBool false ->
  Js.get toolResult "content" = JArr [block] ->
  MCP_convert E block (resolveResource E tool) = Ok converted ->
  Js.get converted "type" = JStr "text" ->
  Js.get converted "text" = JStr text ->
  Anthropic.makeToolMessages E tool toolResult None =
    Ok [JObj [("role", JStr "assistant");
              ("content",
               JArr [JObj [("type", JStr "tool_use");
                           ("id", JStr (id tool));
                           ("name", JStr (name tool));
                           ("input", Js.coalesce (args tool) (JObj []))]])];
        JObj [("role", JStr "user");
              ("content",
               JArr [JObj [("type", JStr "tool_result");
                           ("tool_use_id", JStr (id tool));
                           ("content", JStr text)]])]].
Proof.
  intros Hfair HisError Hcontent Hconv Htype Htext.
  tool_result_is_object Hcontent.
  unfold Anthropic.makeToolMessages.
  change (Js.isString (JObj fs)) with false.
  change (Js.prop (JObj fs) "isError") with (Ok (Js.get (JObj fs) "isError")).
  cbn [bind]. rewrite HisError, Hcontent. cbn [Js.truthy negb andb mapM bind].
  rewrite Hconv. cbn [bind].
  rewrite (Permutation_length_1_inv (Hfair [converted])).
  rewrite (everyM_all_text [converted])
    by (cbn [forallb]; unfold isTextBlock; rewrite Htype; reflexivity).
  cbn [map app bind]. rewrite Htext. reflexivity.
Qed.

Lemma anthropic_single_text_block_witness :
  Anthropic.makeToolMessages Sample.host Sample.tool Sample.textResult None =
    Ok [JObj [("role", JStr "assistant");
              ("content",
               JArr [JObj [("type", JStr "tool_use");
                           ("id", JStr "toolu_01");
                           ("name", JStr "fs--read_file");
                           ("input", JObj [("path", JStr "a.txt")])]])];
        JObj [("role", JStr "user");
              ("content",
               JArr [JObj [("type", JStr "tool_result");
                           ("tool_use_id", JStr "toolu_01");
                           ("content", JStr "hello")]])]].
Proof.
  apply (anthropic_single_text_block Sample.host Sample.tool Sample.textResult
           (JObj [("type", JStr "text"); ("text", JStr "hello")])
           (JObj [("type", JStr "text"); ("text", JStr "hello")]) "hello").
  - intros l. apply Permutation_refl.
  - reflexivity.
  - reflexivity.
  - reflexivity.
  - reflexivity.
  - reflexivity.
Defined.

(** C10. A preceding text that is given and not empty goes to the front of
    the content of the assistant message, before the [tool_use] block; the
    user message is the one produced without preceding text, and the call
    throws with preceding text exactly when it throws without. *)
Theorem anthropic_preceding_text
  (E : Host) (tool : ITool) (toolResult : JsValue) (text : string) :
  text <> "" ->
  match Anthropic.makeToolMessages E tool toolResult None with
  | Ok [assistant; user] =>
      assistant =
        JObj [("role", JStr "assistant");
              ("content", JArr [Anthropic.toolUseBlock tool])] /\
      Anthropic.makeToolMessages E tool toolResult (Some text) =
        Ok [JObj [("role", JStr "assistant");
                  ("content",
                   JArr [JObj [("type", JStr "text"); ("text", JStr text)];
                         Anthropic.toolUseBlock tool])];
            user]
  | Ok _ => False
  | Throw e => Anthropic.makeToolMessages E tool toolResult (Some text) = Throw e
  end.
Proof.
  intros Htext.
  assert (Htruthy : Js.truthy (JStr text) = true).
  { simpl. destruct (String.eqb_spec text ""); [contradiction | reflexivity]. }
  unfold Anthropic.makeToolMessages. rewrite Htruthy.
  destruct (Js.prop toolResult "isError") as [isError|e]; cbn [bind];
    [|reflexivity].
  match goal with
  | |- context [bind (if ?c then ?a else ?b) _] =>
      destruct (if c then a else b) as [userParts|e]
  end; cbn [bind]; [|reflexivity].
  split; reflexivity.
Qed.

Lemma anthropic_preceding_text_witness :
  Anthropic.makeToolMessages Sample.host Sample.tool Sample.textResult
    (Some "Let me read the file.") =
    Ok [JObj [("role", JStr "assistant");
              ("content",
               JArr [JObj [("type", JStr "text");
                           ("text", JStr "Let me read the file.")];
                     Anthropic.toolUseBlock Sample.tool])];
        JObj [("role", JStr "user");
              ("content",
               JArr [JObj [("type", JStr "tool_result");
                           ("tool_use_id", JStr "toolu_01");
                           ("content", JStr "hello")]])]].
Proof.
  exact (proj2 (anthropic_preceding_text Sample.host Sample.tool
                  Sample.textResult "Let me read the file."
                  ltac:(discriminate))).
Defined.

(** C4. A tool result on which the tool host set [isError] becomes an
    ordinary tool-result message and nothing is thrown: for Anthropic the
    user message holds one [tool_result] block whose content is
    [JSON.stringify(toolResult.error)], for Ollama the tool message holds one
    text part with the same serialization. *)
Theorem tool_error_becomes_tool_result
  (E : Host) (tool : ITool) (toolResult : JsValue) (content : option string) :
  Js.truthy (Js.get toolResult "isError") = true ->
  (exists assistant,
     Js.get assistant "role" = JStr "assistant" /\
     Anthropic.makeToolMessages E tool toolResult content =
       Ok [assistant;
           JObj [("role", JStr "user");
                 ("content",
                  JArr [JObj [("type", JStr "tool_result");
                              ("tool_use_id", JStr (id tool));
                              ("content",
                               JSON_stringify E (Js.get toolResult "error"))]])]])
  /\
  Ollama.makeToolMessages E tool toolResult =
    Ok [JObj [("role", JStr "assistant");
              ("tool_calls",
               JArr [JObj [("id", JStr (id tool));
                           ("type", JStr "function");
                           ("function",
                            JObj [("arguments", args tool);
                                  ("name", JStr (name tool))])]])];
        JObj [("role", JStr "tool");
              ("name", JStr (name tool));
              ("content",
               JArr [JObj [("type", JStr "text");
                           ("text",
                            JSON_stringify E (Js.get toolResult "error"))]]);
              ("tool_call_id", JStr (id tool))]].
Proof.
  intros HisError.
  tool_result_is_object HisError.
  split.
  - unfold Anthropic.makeToolMessages.
    change (Js.isString (JObj fs)) with false.
    change (Js.prop (JObj fs) "isError") with (Ok (Js.get (JObj fs) "isError")).
    cbn [bind]. rewrite HisError. cbn [negb andb bind app].
    eexists. split; [|reflexivity].
    destruct content as [text|]; [destruct (Js.truthy (JStr text))|];
      reflexivity.
  - unfold Ollama.makeToolMessages.
    change (Js.isString (JObj fs)) with false.
    change (Js.prop (JObj fs) "isError") with (Ok (Js.get (JObj fs) "isError")).
    cbn [bind]. rewrite HisError. cbn [negb andb bind app]. reflexivity.
Qed.

Lemma tool_error_becomes_tool_result_witness :
  Ollama.makeToolMessages Sample.host Sample.tool Sample.errorResult =
    Ok [JObj [("role", JStr "assistant");
              ("tool_calls",
               JArr [JObj [("id", JStr "toolu_01");
                           ("type", JStr "function");
                           ("function",
                            JObj [("arguments", JObj [("path", JStr "a.txt")]);
                                  ("name", JStr "fs--read_file")])]])];
        JObj [("role", JStr "tool");
              ("name", JStr "fs--read_file");
              ("content",
               JArr [JObj [("type", JStr "text");
                           ("text",
                            Sample.stringify
                              (JObj [("message", JStr "file not found")]))]]);
              ("tool_call_id", JStr "toolu_01")]].
Proof.
  exact (proj2 (tool_error_becomes_tool_result Sample.host Sample.tool
                  Sample.errorResult None ltac:(reflexivity))).
Defined.

(** C1. A tool result whose converted blocks, which are objects, are not all
    text.  Anthropic
    returns two messages: the content array of the user message starts with
    the placeholder [tool_result] block and goes on, in that same array, with
    the legacy form of the converted blocks (in the order their conversions
    finished).  Ollama returns three messages: after the tool message, which
    holds the placeholder note alone, comes a separate user message whose
    content is the legacy form of the converted blocks. *)
Theorem rich_tool_result_anthropic_inline_ollama_supplement
  (E : Host) (tool : ITool) (toolResult : JsValue)
  (content blocks : list JsValue) (legacy : JsValue -> JsValue)
  (precedingText : option string) :
  fairOrder E ->
  Js.truthy (Js.get toolResult "isError") = false ->
  Js.get toolResult "content" = JArr content ->
  mapM (fun block => MCP_convert E block (resolveResource E tool)) content
    = Ok blocks ->
  Forall (fun item => Js.nullish item = false) blocks ->
  forallb isTextBlock blocks = false ->
  (forall item, In item blocks ->
                contentBlockToLegacyMessageContent E item = Ok (legacy item)) ->
  (exists assistant,
     Js.get assistant "role" = JStr "assistant" /\
     Anthropic.makeToolMessages E tool toolResult precedingText =
       Ok [assistant;
           JObj [("role", JStr "user");
                 ("content",
                  JArr (JObj [("type", JStr "tool_result");
                              ("tool_use_id", JStr (id tool));
                              ("content", JStr Anthropic.placeholderNote)]
                        :: map legacy (completionOrder E blocks)))]])
  /\ Permutation (map legacy blocks) (map legacy (completionOrder E blocks))
  /\ Ollama.makeToolMessages E tool toolResult =
       Ok [JObj [("role", JStr "assistant");
                 ("tool_calls",
                  JArr [JObj [("id", JStr (id tool));
                              ("type", JStr "function");
                              ("function",
                               JObj [("arguments", args tool);
                                     ("name", JStr (name tool))])]])];
           JObj [("role", JStr "tool");
                 ("name", JStr (name tool));
                 ("content",
                  JArr [JObj [("type", JStr "text");
                              ("text",
                               JSON_stringify E
                                 (JObj [("message",
                                         JStr Ollama.placeholderNote)]))]]);
                 ("tool_call_id", JStr (id tool))];
           JObj [("role", JStr "user");
                 ("content", JArr (map legacy blocks))]].
Proof.
  intros Hfair HisError Hcontent Hconv Hobjects Hrich Hlegacy.
  tool_result_is_object Hcontent.
  split; [|split].
  - unfold Anthropic.makeToolMessages.
    change (Js.isString (JObj fs)) with false.
    change (Js.prop (JObj fs) "isError") with (Ok (Js.get (JObj fs) "isError")).
    cbn [bind]. rewrite HisError, Hcontent. cbn [Js.truthy negb andb].
    rewrite Hconv. cbn [bind].
    rewrite (everyM_objects _ (Permutation_Forall (Hfair blocks) Hobjects)).
    rewrite <- (forallb_Permutation isTextBlock _ _ (Hfair blocks)), Hrich.
    cbn [bind]. rewrite (mapM_pure _ legacy).
    + cbn [bind app]. eexists. split; [|reflexivity].
      destruct precedingText as [text|]; [destruct (Js.truthy (JStr text))|];
        reflexivity.
    + intros item Hin. apply Hlegacy.
      apply (Permutation_in _ (Permutation_sym (Hfair blocks))). exact Hin.
  - apply Permutation_map. apply Hfair.
  - unfold Ollama.makeToolMessages.
    change (Js.isString (JObj fs)) with false.
    change (Js.prop (JObj fs) "isError") with (Ok (Js.get (JObj fs) "isError")).
    cbn [bind]. rewrite HisError, Hcontent. cbn [Js.truthy negb andb].
    rewrite Hconv. cbn [bind]. rewrite (everyM_objects _ Hobjects), Hrich.
    cbn [bind]. rewrite (mapM_pure _ legacy _ Hlegacy). reflexivity.
Qed.

Lemma rich_tool_result_witness :
  Ollama.makeToolMessages Sample.host Sample.tool Sample.imageResult =
    Ok [JObj [("role", JStr "assistant");
              ("tool_calls",
               JArr [JObj [("id", JStr "toolu_01");
                           ("type", JStr "function");
                           ("function",
                            JObj [("arguments", JObj [("path", JStr "a.txt")]);
                                  ("name", JStr "fs--read_file")])]])];
        JObj [("role", JStr "tool");
              ("name", JStr "fs--read_file");
              ("content",
               JArr [JObj [("type", JStr "text");
                           ("text",
                            Sample.stringify
                              (JObj [("message",
                                      JStr Ollama.placeholderNote)]))]]);
              ("tool_call_id", JStr "toolu_01")];
        JObj [("role", JStr "user");
              ("content",
               JArr [JObj [("type", JStr "text"); ("text", JStr "a chart")];
                     JObj [("type", JStr "image"); ("data", JStr "AAAA");
                           ("mimeType", JStr "image/png")]])]].
Proof.
  refine (proj2 (proj2 (rich_tool_result_anthropic_inline_ollama_supplement
            Sample.host Sample.tool Sample.imageResult
            [JObj [("type", JStr "text"); ("text", JStr "a chart")];
             JObj [("type", JStr "image"); ("data", JStr "AAAA");
                   ("mimeType", JStr "image/png")]]
            [JObj [("type", JStr "text"); ("text", JStr "a chart")];
             JObj [("type", JStr "image"); ("data", JStr "AAAA");
                   ("mimeType", JStr "image/png")]]
            (fun item => item) None _ _ _ _ _ _ _))).
  - intros l. apply Permutation_refl.
  - reflexivity.
  - reflexivity.
  - reflexivity.
  - repeat constructor.
  - reflexivity.
  - intros item _. reflexivity.
Defined.

(** ** The request payload *)

Lemma hasKey_assign (k k' : string) (v : JsValue) (fs : list (string * JsValue)) :
  Js.hasKey k' (Js.assign k v fs) = Js.hasKey k' fs || String.eqb k' k.
Proof.
  induction fs as [|[k0 v0] r IH]; simpl.
  - destruct (String.eqb k' k); reflexivity.
  - destruct (String.eqb_spec k k0) as [->|Hne]; simpl.
    + clear IH. destruct (String.eqb k' k0), (Js.hasKey k' r); reflexivity.
    + rewrite IH. destruct (String.eqb k' k0); reflexivity.
Qed.

Lemma lookup_assign (k k' : string) (v : JsValue) (fs : list (string * JsValue)) :
  Js.lookup k' (Js.assign k v fs) =
    if String.eqb k' k then v else Js.lookup k' fs.
Proof.
  induction fs as [|[k0 v0] r IH]; simpl.
  - destruct (String.eqb k' k); reflexivity.
  - destruct (String.eqb_spec k k0) as [->|Hne]; simpl.
    + destruct (String.eqb k' k0); reflexivity.
    + rewrite IH. destruct (String.eqb_spec k' k0) as [->|Hne'].
      * destruct (String.eqb_spec k0 k); [congruence | reflexivity].
      * reflexivity.
Qed.

Lemma filterM_nonempty {A : Type} (f : A -> Result bool) (l l' : list A) :
  filterM f l = Ok l' -> (0 < List.length l')%nat ->
  exists x, In x l /\ f x = Ok true.
Proof.
  intros H Hlen. destruct l' as [|x r]; [simpl in Hlen; lia|].
  exists x. apply (filterM_In f l (x :: r) x H). left. reflexivity.
Qed.

(** The payload before the tool step has no tool key. *)
Definition toolFree (p : JsValue) : Prop :=
  exists fs, p = JObj fs /\
             Js.hasKey "tools" fs = false /\ Js.hasKey "tool_choice" fs = false.

Lemma toolFree_set (p : JsValue) (k : string) (v : JsValue) :
  toolFree p -> String.eqb "tools" k = false ->
  String.eqb "tool_choice" k = false -> toolFree (Js.set p k v).
Proof.
  intros [fs [-> [Ht Hc]]] Hk1 Hk2. exists (Js.assign k v fs).
  split; [reflexivity|]. rewrite !hasKey_assign, Ht, Hc, Hk1, Hk2.
  split; reflexivity.
Qed.

(** C3. Whatever payload [makePayload] returns: it has a [tools] key only
    when tool use is enabled and the tool host listed a tool whose name is
    not among the used names; when it has the [tools] key its [tool_choice]
    is exactly [{type: 'auto', disable_parallel_tool_use: true}]; when every
    listed tool has been used it has neither key. *)
Theorem anthropic_payload_tools
  (C : Context) (E : Host) (messages : list JsValue) (payload : JsValue) :
  Anthropic.makePayload C E messages = Ok payload ->
  (Js.has payload "tools" = true ->
   toolsEnabled C = true /\
   exists tools all tool n,
     listTools C = Ok tools /\ Js.get tools "tools" = JArr all /\
     In tool all /\ Js.prop tool "name" = Ok n /\
     Js.includes (usedToolNames C) n = false)
  /\
  (Js.has payload "tools" = true ->
   Js.get payload "tool_choice" =
     JObj [("type", JStr "auto"); ("disable_parallel_tool_use", JBool true)])
  /\
  ((forall tools all tool n,
      listTools C = Ok tools -> Js.get tools "tools" = JArr all ->
      In tool all -> Js.prop tool "name" = Ok n ->
      Js.includes (usedToolNames C) n = true) ->
   Js.has payload "tools" = false /\ Js.has payload "tool_choice" = false).
Proof.
  unfold Anthropic.makePayload.
  destruct (Anthropic.makeMessages C E messages) as [msgs|e]; cbn [bind];
    [|discriminate].
  match goal with
  | |- context [bind _ (fun payload3 => Ok (if ?c then _ else _))] =>
      match goal with
      | |- context [bind (if toolsEnabled C then _ else Ok ?p2) _] =>
          assert (Hfree : toolFree p2);
          [ | generalize dependent p2; intros payload2 Hfree ]
      end
  end.
  { destruct (isBlank E (systemMessage C)), (Js.truthy (maxTokens C));
      cbn [negb]; eexists; (split; [reflexivity | split; reflexivity]). }
  assert (Hnone : forall p, p = payload2 \/
                            p = Js.set payload2 "max_tokens" (maxTokens C) ->
                            Js.has p "tools" = false /\
                            Js.has p "tool_choice" = false).
  { intros p [-> | ->].
    - destruct Hfree as [fs [-> [Ht Hc]]]. split; assumption.
    - destruct (toolFree_set payload2 "max_tokens" (maxTokens C) Hfree
                  eq_refl eq_refl) as [fs [-> [Ht Hc]]].
      split; assumption. }
  assert (Hplain : forall p,
             Ok (if Js.truthy (maxTokens C)
                 then Js.set payload2 "max_tokens" (maxTokens C)
                 else payload2) = Ok p ->
             Js.has p "tools" = false /\ Js.has p "tool_choice" = false).
  { intros p Hp. injection Hp as <-. apply Hnone.
    destruct (Js.truthy (maxTokens C)); [right | left]; reflexivity. }
  destruct (toolsEnabled C) eqn:Henabled.
  2:{ cbn [bind]. intros Hp. destruct (Hplain _ Hp) as [Ht Hc].
      rewrite Ht. repeat split; try discriminate; assumption. }
  destruct (listTools C) as [tools|e] eqn:Hlist; cbn [bind]; [|discriminate].
  destruct (Js.truthy tools).
  2:{ cbn [bind]. intros Hp. destruct (Hplain _ Hp) as [Ht Hc].
      rewrite Ht. repeat split; try discriminate; assumption. }
  destruct (Js.get tools "tools") as [| | | | |all|] eqn:Hall;
    cbn [bind]; try discriminate.
  destruct (filterM _ all) as [unused|e] eqn:Hunused; cbn [bind];
    [|discriminate].
  destruct (mapM (Anthropic.makeTool E) unused) as [unusedTools|e] eqn:Hmade;
    cbn [bind]; [|discriminate].
  destruct (0 <? List.length unusedTools)%nat eqn:Hlen.
  2:{ cbn [bind]. intros Hp. destruct (Hplain _ Hp) as [Ht Hc].
      rewrite Ht. repeat split; try discriminate; assumption. }
  cbn [bind]. intros Hp.
  assert (Hsome : exists tool n,
             In tool all /\ Js.prop tool "name" = Ok n /\
             Js.includes (usedToolNames C) n = false).
  { apply Nat.ltb_lt in Hlen. rewrite (mapM_length _ _ _ Hmade) in Hlen.
    destruct (filterM_nonempty _ _ _ Hunused Hlen) as [tool [Hin Hf]].
    destruct (Js.prop tool "name") as [n|e] eqn:Hn; cbn [bind] in Hf;
      [|discriminate].
    exists tool, n. repeat split; try assumption.
    injection Hf as Hf. destruct (Js.includes (usedToolNames C) n);
      [discriminate | reflexivity]. }
  destruct Hfree as [fs [-> [Ht Hc]]].
  assert (Hkeys : Js.has payload "tools" = true /\
                  Js.get payload "tool_choice" = Anthropic.toolChoice).
  { injection Hp as <-. destruct (Js.truthy (maxTokens C)); cbn [Js.set Js.has Js.get];
      rewrite ?hasKey_assign, ?lookup_assign, ?Ht; split; reflexivity. }
  destruct Hkeys as [Hhas Hchoice].
  split; [|split].
  - intros _. split; [reflexivity|].
    destruct Hsome as [tool [n [Hin [Hn Hinc]]]].
    exists tools, all, tool, n. repeat split; assumption.
  - intros _. exact Hchoice.
  - intros Hused. destruct Hsome as [tool [n [Hin [Hn Hinc]]]].
    rewrite (Hused tools all tool n eq_refl Hall Hin Hn) in Hinc.
    discriminate.
Qed.

Lemma anthropic_payload_tools_witness :
  exists payload,
    Anthropic.makePayload (Sample.context false true) Sample.host
      [JObj [("role", JStr "user"); ("content", JStr "hello")]] = Ok payload /\
    Js.get payload "tool_choice" =
      JObj [("type", JStr "auto"); ("disable_parallel_tool_use", JBool true)].
Proof.
  eexists. split.
  - vm_compute. reflexivity.
  - apply (anthropic_payload_tools (Sample.context false true) Sample.host
             [JObj [("role", JStr "user"); ("content", JStr "hello")]]).
    + vm_compute. reflexivity.
    + vm_compute. reflexivity.
Defined.

(** ** Messages of the Anthropic adapter *)

(** C6, as the code has it.  In a new message that has not the role
    ['tool'] and is no assistant message with tool calls, a content part
    whose type is neither ['text'] nor ['image_url']
    (['audio'], or any other value) becomes the empty text block in its
    place and one warning is passed to [debug]; the parts around it and the
    messages around its message are produced as they are without it. *)
Theorem anthropic_unsupported_part_degrades
  (C : Context) (E : Host) (msg item type : JsValue)
  (before after earlier later : list JsValue)
  (partsBefore partsAfter processedEarlier processedLater
     : list (JsValue * list string))
  (history : list (list JsValue)) :
  mapM (Anthropic.ctxToMessages E) (ctxMessages C) = Ok history ->
  mapM (Anthropic.processMessage C E) earlier = Ok processedEarlier ->
  mapM (Anthropic.processMessage C E) later = Ok processedLater ->
  isStr (Js.get msg "role") "tool" = false ->
  isStr (Js.get msg "role") "assistant" && Js.truthy (Js.get msg "tool_calls")
    = false ->
  Js.get msg "content" = JArr (before ++ item :: after) ->
  mapM Anthropic.convertItem before = Ok partsBefore ->
  mapM Anthropic.convertItem after = Ok partsAfter ->
  Js.prop item "type" = Ok type ->
  isStr type "text" = false ->
  isStr type "image_url" = false ->
  Anthropic.makeMessages C E (earlier ++ msg :: later) =
    Ok (concat history ++ map fst processedEarlier ++
        JObj [("role", Js.get msg "role");
              ("content",
               JArr (map fst partsBefore ++
                     JObj [("type", JStr "text"); ("text", JStr "")]
                     :: map fst partsAfter))]
        :: map fst processedLater,
        concat (map snd processedEarlier) ++
        (concat (map snd partsBefore) ++
         (if isStr type "audio"
          then "Warning: Audio content type not supported, converting to empty text"
          else ("Warning: Unknown content type '" ++ Js.ToString type
                  ++ "', converting to empty text")%string)
         :: concat (map snd partsAfter)) ++
        concat (map snd processedLater)).
Proof.
  intros Hhistory Hearlier Hlater Hrole Hcalls Hcontent Hbefore Hafter
         Htype Htext Himage.
  assert (Hitem : Anthropic.convertItem item =
                    Ok (Anthropic.textBlock (JStr ""),
                        [if isStr type "audio"
                         then Anthropic.audioWarning
                         else Anthropic.unknownWarning type])).
  { unfold Anthropic.convertItem. rewrite Htype. cbn [bind].
    rewrite Htext, Himage. destruct (isStr type "audio"); reflexivity. }
  assert (Hparts : mapM Anthropic.convertItem (before ++ item :: after) =
                     Ok (partsBefore ++
                         (Anthropic.textBlock (JStr ""),
                          [if isStr type "audio"
                           then Anthropic.audioWarning
                           else Anthropic.unknownWarning type])
                         :: partsAfter)).
  { apply mapM_app; [exact Hbefore|].
    cbn [mapM]. rewrite Hitem, Hafter. reflexivity. }
  assert (Hmsg : Anthropic.processMessage C E msg =
                   Ok (JObj [("role", Js.get msg "role");
                             ("content",
                              JArr (map fst partsBefore ++
                                    Anthropic.textBlock (JStr "")
                                    :: map fst partsAfter))],
                       concat (map snd partsBefore) ++
                       (if isStr type "audio"
                        then Anthropic.audioWarning
                        else Anthropic.unknownWarning type)
                       :: concat (map snd partsAfter))).
  { unfold Anthropic.processMessage.
    rewrite (get_array_prop msg "content" "role" _ Hcontent). cbn [bind].
    rewrite Hrole, Hcalls, Hcontent, Hparts. cbn [bind].
    rewrite !map_app, concat_app. reflexivity. }
  unfold Anthropic.makeMessages. rewrite Hhistory. cbn [bind].
  rewrite (mapM_app _ _ _ processedEarlier
             ((JObj [("role", Js.get msg "role");
                     ("content",
                      JArr (map fst partsBefore ++
                            Anthropic.textBlock (JStr "")
                            :: map fst partsAfter))],
               concat (map snd partsBefore) ++
               (if isStr type "audio"
                then Anthropic.audioWarning
                else Anthropic.unknownWarning type)
               :: concat (map snd partsAfter)) :: processedLater) Hearlier).
  - cbn [bind]. rewrite !map_app, concat_app. reflexivity.
  - cbn [mapM]. rewrite Hmsg, Hlater. reflexivity.
Qed.

Lemma anthropic_unsupported_part_degrades_witness :
  Anthropic.makeMessages (Sample.context false false) Sample.host
    [JObj [("role", JStr "user");
           ("content",
            JArr [JObj [("type", JStr "text"); ("text", JStr "listen")];
                  JObj [("type", JStr "audio"); ("data", JStr "AAAA")];
                  JObj [("type", JStr "video"); ("data", JStr "BBBB")]])]] =
    Ok ([JObj [("role", JStr "user");
               ("content",
                JArr [JObj [("type", JStr "text"); ("text", JStr "listen")];
                      JObj [("type", JStr "text"); ("text", JStr "")];
                      JObj [("type", JStr "text"); ("text", JStr "")]])]],
        ["Warning: Audio content type not supported, converting to empty text";
         "Warning: Unknown content type 'video', converting to empty text"]).
Proof.
  exact (anthropic_unsupported_part_degrades
           (Sample.context false false) Sample.host
           (JObj [("role", JStr "user");
                  ("content",
                   JArr [JObj [("type", JStr "text"); ("text", JStr "listen")];
                         JObj [("type", JStr "audio"); ("data", JStr "AAAA")];
                         JObj [("type", JStr "video"); ("data", JStr "BBBB")]])])
           (JObj [("type", JStr "audio"); ("data", JStr "AAAA")])
           (JStr "audio")
           [JObj [("type", JStr "text"); ("text", JStr "listen")]]
           [JObj [("type", JStr "video"); ("data", JStr "BBBB")]]
           [] []
           [(JObj [("type", JStr "text"); ("text", JStr "listen")], [])]
           [(JObj [("type", JStr "text"); ("text", JStr "")],
             ["Warning: Unknown content type 'video', converting to empty text"])]
           [] [] []
           eq_refl eq_refl eq_refl eq_refl eq_refl eq_refl eq_refl eq_refl
           eq_refl eq_refl eq_refl).
Defined.

(** C6 as stated fails on the messages whose content [makeMessages] does
    not convert part by part.  An assistant message with tool calls is
    passed on with its audio part; a tool message has its content, audio
    part included, serialized into the [tool_result]; stored structured
    prompts are copied with their audio part.  No warning is logged. *)
Lemma anthropic_unsupported_part_passed_on :
  Anthropic.makeMessages (Sample.context false false) Sample.host
    [Structured.assistantWithAudio] =
    Ok ([JObj [("role", JStr "assistant");
               ("tool_calls", JArr [JObj [("id", JStr "call_1")]]);
               ("content",
                JArr [JObj [("type", JStr "audio"); ("data", JStr "AAAA")]])]],
        [])
  /\
  Anthropic.makeMessages (Sample.context false false) Sample.host
    [Structured.toolWithAudio] =
    Ok ([JObj [("content",
                Sample.stringify
                  (JArr [JObj [("type", JStr "audio");
                               ("data", JStr "AAAA")]]));
               ("type", JStr "tool_result");
               ("tool_use_id", JStr "call_1")]],
        [])
  /\
  Anthropic.makeMessages Structured.context Structured.host [] =
    Ok ([JObj [("role", JStr "user");
               ("content",
                JArr [JObj [("type", JStr "audio"); ("data", JStr "AAAA")]])];
         JObj [("role", JStr "assistant"); ("content", JStr "ok")]],
        []).
Proof.
  repeat split.
Qed.

(** No message that [makeMessages] builds from the new messages has the
    role ['tool']. *)
Lemma anthropic_processed_role_not_tool
  (C : Context) (E : Host) (msg out : JsValue) (log : list string) :
  Anthropic.processMessage C E msg = Ok (out, log) ->
  Js.get out "role" <> JStr "tool".
Proof.
  unfold Anthropic.processMessage.
  destruct (Js.prop msg "role") as [role|e] eqn:Hprop; cbn [bind];
    [|discriminate].
  assert (Hget : role = Js.get msg "role").
  { unfold Js.prop in Hprop. destruct (Js.nullish msg); congruence. }
  destruct (isStr role "tool") eqn:Htool.
  { intros H. injection H as <- _. discriminate. }
  assert (Hne : role <> JStr "tool").
  { intros ->. discriminate. }
  destruct (isStr role "assistant" && Js.truthy (Js.get msg "tool_calls")).
  { intros H. injection H as <- _. congruence. }
  destruct (Js.get msg "content") as [| | | |s|items|].
  5:{ destruct (Anthropic.convertPromptContent C E s); cbn [bind];
        [|discriminate].
      intros H. injection H as <- _. exact Hne. }
  5:{ destruct (mapM Anthropic.convertItem items); cbn [bind];
        [|discriminate].
      intros H. injection H as <- _. exact Hne. }
  all: intros H; injection H as <- _; exact Hne.
Qed.

(** C7, on the code.  A new message with the role ['tool'] comes out of
    [makeMessages] as the bare object
    [{content, type: 'tool_result', tool_use_id}]: it carries the
    [tool_call_id], but it has no [role] and no content array around the
    block, so it is no user message. *)
Theorem anthropic_tool_message_has_no_role
  (C : Context) (E : Host) (content tool_call_id : JsValue) :
  ctxMessages C = [] ->
  exists out,
    Anthropic.makeMessages C E
      [JObj [("role", JStr "tool"); ("content", content);
             ("tool_call_id", tool_call_id)]] = Ok ([out], []) /\
    out = JObj [("content", JSON_stringify E content);
                ("type", JStr "tool_result");
                ("tool_use_id", tool_call_id)] /\
    Js.has out "role" = false /\
    Js.get out "role" <> JStr "user".
Proof.
  intros Hctx. eexists. split; [|split; [reflexivity|split]].
  - unfold Anthropic.makeMessages. rewrite Hctx. reflexivity.
  - reflexivity.
  - discriminate.
Qed.

Lemma anthropic_tool_message_has_no_role_witness :
  Anthropic.makeMessages (Sample.context false false) Sample.host
    [JObj [("role", JStr "tool"); ("content", JStr "42");
           ("tool_call_id", JStr "call_1")]] =
    Ok ([JObj [("content", Sample.stringify (JStr "42"));
               ("type", JStr "tool_result");
               ("tool_use_id", JStr "call_1")]], []).
Proof.
  destruct (anthropic_tool_message_has_no_role (Sample.context false false)
              Sample.host (JStr "42") (JStr "call_1") eq_refl)
    as [out [Hrun [-> _]]].
  exact Hrun.
Defined.

(** ** Messages of the DeepSeek adapter *)

Lemma get_set_same (fs : list (string * JsValue)) (k : string) (v : JsValue) :
  Js.get (Js.set (JObj fs) k v) k = v.
Proof.
  simpl. rewrite lookup_assign, String.eqb_refl. reflexivity.
Qed.


Lemma prop_ok (v : JsValue) (k : string) :
  Js.nullish v = false -> Js.prop v k = Ok (Js.get v k).
Proof.
  intros H. unfold Js.prop. rewrite H. reflexivity.
Qed.

Lemma prop_inv (v out : JsValue) (k : string) :
  Js.prop v k = Ok out -> Js.nullish v = false /\ out = Js.get v k.
Proof.
  unfold Js.prop. destruct (Js.nullish v); [discriminate|].
  intros H. injection H as <-. split; reflexivity.
Qed.

Lemma joinItem_or_empty (part : JsValue) :
  Js.joinItem (Js.or (Js.get part "text") (JStr "")) = Claimed.partText part.
Proof.
  unfold Js.or, Claimed.partText.
  destruct (Js.get part "text") as [| |[|]|n|s|l|fs]; try reflexivity.
  - simpl. destruct (Z.eqb n 0); reflexivity.
  - simpl. destruct (String.eqb s ""); reflexivity.
Qed.

Lemma deepseek_formatMessage_string (msg out : JsValue) :
  DeepSeek.formatMessage msg = Ok out -> Js.truthy out = true ->
  exists s, Js.get out "content" = JStr s.
Proof.
  unfold DeepSeek.formatMessage.
  destruct (Js.prop msg "content") as [content|e] eqn:Hprop; cbn [bind];
    [|discriminate].
  destruct (prop_inv _ _ _ Hprop) as [_ ->].
  destruct (Js.get msg "content") as [| | | |s|parts|] eqn:Hcontent;
    try (intros H; injection H as <-; discriminate).
  - intros H _. injection H as <-. exists s. exact Hcontent.
  - destruct (mapM _ parts) as [texts|e]; cbn [bind]; [|discriminate].
    intros H _. injection H as <-.
    destruct (get_defined_is_object msg "content"
                ltac:(rewrite Hcontent; discriminate)) as [fs ->].
    eexists. apply get_set_same.
Qed.

Lemma deepseek_formatMessage_total (msg : JsValue) :
  Js.nullish msg = false ->
  (forall parts, Js.get msg "content" = JArr parts ->
                 Forall (fun part => Js.nullish part = false) parts) ->
  exists out, DeepSeek.formatMessage msg = Ok out /\
              filter Js.truthy [out] = Claimed.deepseekFlattened msg.
Proof.
  intros Hmsg Hparts. unfold DeepSeek.formatMessage, Claimed.deepseekFlattened.
  rewrite (prop_ok _ _ Hmsg). cbn [bind].
  destruct (Js.get msg "content") as [| | | |s|parts|] eqn:Hcontent;
    try (eexists; split; reflexivity).
  - exists msg. split; [reflexivity|].
    destruct (get_defined_is_object msg "content"
                ltac:(rewrite Hcontent; discriminate)) as [fs ->].
    reflexivity.
  - destruct (get_defined_is_object msg "content"
                ltac:(rewrite Hcontent; discriminate)) as [fs ->].
    rewrite (mapM_pure _ (fun part => Js.or (Js.get part "text") (JStr ""))).
    + cbn [bind]. eexists. split; [reflexivity|].
      cbn [filter Js.set Js.truthy]. unfold Js.join. rewrite map_map.
      do 5 f_equal. apply map_ext. intros part. apply joinItem_or_empty.
    + intros part Hin. specialize (Hparts parts eq_refl).
      rewrite Forall_forall in Hparts.
      rewrite (prop_ok _ _ (Hparts part Hin)). reflexivity.
Qed.

(** C9. Every message that the DeepSeek [makeMessages] returns has string
    content.  On messages that are objects whose content parts are objects
    it returns, message by message: the message itself when its content is a
    string, the message with the texts of its parts joined by newlines (the
    empty string for a part without text) when its content is an array, and
    nothing otherwise. *)
Theorem deepseek_messages_have_string_content
  (E : Host) (messages : list JsValue) :
  (forall out, DeepSeek.makeMessages E messages = Ok out ->
               Forall (fun m => exists s, Js.get m "content" = JStr s) out)
  /\
  (forall result,
     OpenAI_makeMessages E messages = Ok result ->
     Forall (fun msg => Js.nullish msg = false) result ->
     Forall (fun msg =>
               forall parts, Js.get msg "content" = JArr parts ->
                             Forall (fun part => Js.nullish part = false) parts)
            result ->
     DeepSeek.makeMessages E messages =
       Ok (flat_map Claimed.deepseekFlattened result)).
Proof.
  split.
  - intros out. unfold DeepSeek.makeMessages.
    destruct (OpenAI_makeMessages E messages) as [result|e]; cbn [bind];
      [|discriminate].
    destruct (mapM DeepSeek.formatMessage result) as [formated|e] eqn:Hmap;
      cbn [bind]; [|discriminate].
    intros H. injection H as <-.
    apply Forall_forall. intros m Hin. apply filter_In in Hin.
    destruct Hin as [Hin Htruthy].
    revert formated Hmap Hin. induction result as [|msg r IH];
      intros formated Hmap Hin; cbn [mapM] in Hmap.
    + injection Hmap as <-. contradiction.
    + destruct (DeepSeek.formatMessage msg) as [o|e] eqn:Hfmt;
        cbn [bind] in Hmap; [|discriminate].
      destruct (mapM DeepSeek.formatMessage r) as [os|e];
        cbn [bind] in Hmap; [|discriminate].
      injection Hmap as <-. destruct Hin as [<-|Hin].
      * exact (deepseek_formatMessage_string msg o Hfmt Htruthy).
      * exact (IH os eq_refl Hin).
  - intros result Hsuper Hobjects Hparts. unfold DeepSeek.makeMessages.
    rewrite Hsuper. cbn [bind]. clear Hsuper.
    assert (H : exists formated,
               mapM DeepSeek.formatMessage result = Ok formated /\
               filter Js.truthy formated =
                 flat_map Claimed.deepseekFlattened result).
    { induction result as [|msg r IH].
      - exists []. split; reflexivity.
      - inversion Hobjects as [|? ? Hmsg Hrest]; subst.
        inversion Hparts as [|? ? Hp Hprest]; subst.
        destruct (deepseek_formatMessage_total msg Hmsg Hp) as [o [Ho Hf]].
        destruct (IH Hrest Hprest) as [os [Hos Hfs]].
        exists (o :: os). split.
        + cbn [mapM]. rewrite Ho, Hos. reflexivity.
        + change (o :: os) with ([o] ++ os). rewrite filter_app, Hf, Hfs.
          reflexivity. }
    destruct H as [formated [-> <-]]. reflexivity.
Qed.

Lemma deepseek_messages_have_string_content_witness :
  DeepSeek.makeMessages Sample.host Sample.conversation =
    Ok [JObj [("role", JStr "system"); ("content", JStr "be brief")];
        JObj [("role", JStr "user");
              ("content",
               JStr ("what is this" ++ nl ++ nl ++ "in one word")%string)]].
Proof.
  refine (proj2 (deepseek_messages_have_string_content Sample.host
                   Sample.conversation)
                Sample.conversation eq_refl _ _).
  - repeat constructor.
  - repeat constructor; intros parts H; try discriminate.
    injection H as <-. repeat constructor.
Defined.

(** ** Prompt content with images *)

Lemma mapM_throws {A B : Type} (f : A -> Result B) (l : list A) (x : A) :
  In x l -> isOk (f x) = false -> isOk (mapM f l) = false.
Proof.
  induction l as [|a r IH]; intros Hin Hx; simpl in *.
  - contradiction.
  - destruct Hin as [->|Hin].
    + destruct (f x); [discriminate | reflexivity].
    + destruct (f a); [|reflexivity]. simpl.
      specialize (IH Hin Hx). destruct (mapM f r); [discriminate | reflexivity].
Qed.

Lemma filter_filter {A : Type} (f g : A -> bool) (l : list A) :
  filter f (filter g l) = filter (fun x => g x && f x) l.
Proof.
  induction l as [|x r IH]; simpl.
  - reflexivity.
  - destruct (g x); simpl; [destruct (f x)|]; rewrite IH; reflexivity.
Qed.

Lemma ollama_valid_images (E : Host) (remote : list ImgItem) :
  filter (fun img => match img with JNull => false | _ => true end)
    (map (fun item =>
            match fetchAsDataURL E (item_data item) with
            | Ok base64 => Js.at_ (Js.split "," base64) 1
            | Throw _ => JNull
            end) remote) =
  flat_map (fun item =>
              match fetchAsDataURL E (item_data item) with
              | Ok dataUrl => [Js.at_ (Js.split "," dataUrl) 1]
              | Throw _ => []
              end) remote.
Proof.
  induction remote as [|item r IH]; simpl.
  - reflexivity.
  - destruct (fetchAsDataURL E (item_data item)) as [u|e]; simpl.
    + rewrite IH. unfold Js.at_.
      destruct (nth_error (Js.split "," u) 1); reflexivity.
    + exact IH.
Qed.

Lemma ollama_local_images (items : list ImgItem) :
  map (fun i =>
         let base64Data := Js.split "," (item_data i) in
         if (List.length base64Data <? 2)%nat
         then JStr (item_data i)
         else Js.at_ base64Data 1)
      (filter (fun item => isStr (item_dataType item) "base64")
              (filter (fun item => String.eqb (item_type item) "image") items))
  = Claimed.inlineImages items.
Proof.
  unfold Claimed.inlineImages. rewrite filter_filter.
  apply map_ext. intros i. cbv zeta.
  destruct (Js.split "," (item_data i)) as [|a [|b r]]; reflexivity.
Qed.

(** C5, as the code has it.  Ollama: under vision [convertPromptContent]
    always gives a result, whose content is the text of the prompt; a remote
    image that cannot be fetched is left out, and when at least one remote
    image is fetched the images are the inline images followed by the
    fetched ones.  Anthropic: under vision a remote image whose [getBase64]
    fails makes [convertPromptContent] throw. *)
Theorem convertPromptContent_failed_fetch
  (C : Context) (E : Host) (content : string) :
  visionEnabled C = true ->
  Js.get (Ollama.convertPromptContent C E content) "content" =
    JStr (String.concat nl
            (map item_data
                 (filter (fun item => String.eqb (item_type item) "text")
                         (splitByImg E content))))
  /\
  (Claimed.fetchedImages E (splitByImg E content) <> [] ->
   Js.get (Ollama.convertPromptContent C E content) "images" =
     JArr (Claimed.inlineImages (splitByImg E content) ++
           Claimed.fetchedImages E (splitByImg E content)))
  /\
  (forall item,
     In item (splitByImg E content) ->
     item_type item = "image" ->
     item_dataType item = JStr "URL" ->
     isOk (getBase64 E (item_data item)) = false ->
     isOk (Anthropic.convertPromptContent C E content) = false).
Proof.
  intros Hvision. unfold Ollama.convertPromptContent, Claimed.fetchedImages.
  rewrite Hvision, ollama_valid_images, ollama_local_images.
  set (items := splitByImg E content).
  set (texts := String.concat nl _).
  assert (Hor : Js.or (JStr texts) (JStr "") = JStr texts).
  { unfold Js.or. simpl. destruct (String.eqb_spec texts ""); simpl;
      [congruence | reflexivity]. }
  rewrite Hor.
  set (remote := filter (fun item => isStr (item_dataType item) "URL") items).
  set (fetched := flat_map _ remote).
  split; [|split].
  - destruct (0 <? List.length remote)%nat;
      [destruct (0 <? List.length fetched)%nat
      |destruct (0 <? List.length (Claimed.inlineImages items))%nat];
      reflexivity.
  - intros Hfetched.
    assert (Hremote : (0 <? List.length remote)%nat = true).
    { destruct remote; [exfalso; apply Hfetched; reflexivity | reflexivity]. }
    assert (Hlen : (0 <? List.length fetched)%nat = true).
    { destruct fetched; [contradiction | reflexivity]. }
    rewrite Hremote, Hlen. reflexivity.
  - intros item Hin Htype Hurl Hfail.
    unfold Anthropic.convertPromptContent. rewrite Hvision.
    match goal with
    | |- context [mapM ?f ?l] =>
        assert (Hthrow : isOk (mapM f l) = false);
        [ apply (mapM_throws f l item Hin) | ]
    end.
    + rewrite Htype, Hurl. cbn [String.eqb Ascii.eqb Bool.eqb isStr andb].
      destruct (getBase64 E (item_data item)); [discriminate | reflexivity].
    + destruct (mapM _ (splitByImg E content)); [discriminate | reflexivity].
Qed.

Lemma convertPromptContent_failed_fetch_witness :
  Ollama.convertPromptContent (Sample.context true false) Sample.host
    Sample.promptText =
    JObj [("content", JStr "look");
          ("images", JArr [JStr "AAAA"; JStr "BBBB"])]
  /\
  Js.get (Ollama.convertPromptContent (Sample.context true false) Sample.host
            Sample.promptText) "images" =
    JArr (Claimed.inlineImages (splitByImg Sample.host Sample.promptText) ++
          Claimed.fetchedImages Sample.host
            (splitByImg Sample.host Sample.promptText)).
Proof.
  split.
  - reflexivity.
  - apply (convertPromptContent_failed_fetch (Sample.context true false)
             Sample.host Sample.promptText).
    + reflexivity.
    + vm_compute. discriminate.
Defined.

(** C5 as stated fails for Anthropic: the prompt has a text, a remote image
    that cannot be fetched and two other images, and the conversion throws
    instead of producing the text and the other images. *)
Lemma anthropic_failed_fetch_aborts_conversion :
  visionEnabled (Sample.context true false) = true /\
  getBase64 Sample.host Sample.remoteUrl = Throw "Failed to fetch" /\
  Anthropic.convertPromptContent (Sample.context true false) Sample.host
    Sample.promptText = Throw "Failed to fetch".
Proof.
  repeat split.
Qed.

(** The same prompt when no remote image can be fetched at all: the Ollama
    adapter then leaves out the inline image as well. *)
Example ollama_no_fetch_loses_inline_image :
  Ollama.convertPromptContent (Sample.context true false)
    {| JSON_stringify := Sample.stringify;
       JSON_parse := JSON_parse Sample.host;
       readResource := readResource Sample.host;
       MCP_convert := MCP_convert Sample.host;
       contentBlockToLegacyMessageContent :=
         contentBlockToLegacyMessageContent Sample.host;
       completionOrder := completionOrder Sample.host;
       splitByImg := splitByImg Sample.host;
       getBase64 := getBase64 Sample.host;
       fetchAsDataURL := fun _ => Throw "Failed to fetch";
       fetchAsBase64 := fetchAsBase64 Sample.host;
       stripHtmlTags := stripHtmlTags Sample.host;
       isBlank := isBlank Sample.host;
       removeAdditionalProperties := removeAdditionalProperties Sample.host;
       OpenAI_makeMessages := OpenAI_makeMessages Sample.host |}
    Sample.promptText = JObj [("content", JStr "look")].
Proof. reflexivity. Qed.

(** ** Messages of the Ollama adapter *)

Lemma encodeImage_bare (E : Host) (image : string) :
  exists v, Ollama.encodeImage E (JStr image) = Ok v /\
            filter Js.truthy [v] = Claimed.bareImage E image.
Proof.
  unfold Ollama.encodeImage, Claimed.bareImage.
  destruct (Js.startsWith "data:" image).
  - eexists. split; [reflexivity|]. unfold Js.at_.
    destruct (Js.split "," image) as [|a [|b r]]; try reflexivity.
    simpl. destruct (String.eqb b ""); reflexivity.
  - destruct (Js.startsWith "http:" image || Js.startsWith "https:" image
              || Js.startsWith "blob:" image).
    + destruct (fetchAsBase64 E image) as [b|e].
      * eexists. split; [reflexivity|]. simpl.
        destruct (String.eqb b ""); reflexivity.
      * eexists. split; reflexivity.
    + eexists. split; reflexivity.
Qed.

Lemma encodeImages_bare (E : Host) (urls : list string) :
  exists vs, mapM (Ollama.encodeImage E) (map JStr urls) = Ok vs /\
             filter Js.truthy vs = flat_map (Claimed.bareImage E) urls.
Proof.
  induction urls as [|u r [vs [Hvs Hf]]].
  - exists []. split; reflexivity.
  - destruct (encodeImage_bare E u) as [v [Hv Hfv]].
    exists (v :: vs). split.
    + cbn [map mapM]. rewrite Hv, Hvs. reflexivity.
    + change (v :: vs) with ([v] ++ vs). rewrite filter_app, Hfv, Hf.
      reflexivity.
Qed.

Lemma imagesOfItem_objects (parts : list JsValue) (imgs : list (list JsValue)) :
  mapM Ollama.imagesOfItem parts = Ok imgs ->
  Forall (fun item => Js.nullish item = false) parts.
Proof.
  revert imgs. induction parts as [|item r IH]; intros imgs H.
  - constructor.
  - cbn [mapM] in H.
    destruct (Ollama.imagesOfItem item) as [i|e] eqn:Hitem; cbn [bind] in H;
      [|discriminate].
    destruct (mapM Ollama.imagesOfItem r) as [others|e]; cbn [bind] in H;
      [|discriminate].
    constructor; [|exact (IH others eq_refl)].
    unfold Ollama.imagesOfItem, Js.prop in Hitem.
    destruct (Js.nullish item); [discriminate | reflexivity].
Qed.

Lemma text_parts_of_objects (parts : list JsValue) :
  Forall (fun item => Js.nullish item = false) parts ->
  filterM (fun item => t <- Js.prop item "type" ;; Ok (isStr t "text")) parts
    = Ok (filter isTextBlock parts).
Proof.
  induction 1 as [|item r Hitem _ IH]; cbn [filterM filter].
  - reflexivity.
  - rewrite (prop_ok _ _ Hitem), IH. reflexivity.
Qed.

Lemma pushed_in_output (E : Host) (pushed : list Ollama.Pushed) (m : JsValue) :
  fairOrder E ->
  In (Ollama.PushedAtOnce m) pushed \/ In (Ollama.PushedAfterAwait m) pushed ->
  In m (flat_map Ollama.atOnce pushed ++
        completionOrder E (flat_map Ollama.afterAwait pushed)).
Proof.
  intros Hfair [Hin|Hin]; apply in_or_app.
  - left. apply in_flat_map. eexists. split; [exact Hin | left; reflexivity].
  - right. apply (Permutation_in _ (Hfair _)).
    apply in_flat_map. eexists. split; [exact Hin | left; reflexivity].
Qed.

(** C8, as the code has it.  Every message with array content that reaches
    the Ollama [makeMessages] is in its output with the role it had, with
    the texts of its text parts joined into one string as content, and with
    an [images] field beside it: under vision the array that holds, in
    order, what each image string yields (the text between the first and
    second comma of a [data:] URL, the base64 encoding of a fetched [http:],
    [https:] or [blob:] URL) and leaves out the images that yield nothing;
    without vision [undefined]. *)
Theorem ollama_array_message_emitted
  (C : Context) (E : Host) (messages result out parts : list JsValue)
  (message : JsValue) (imgs : list (list JsValue)) (urls : list string) :
  fairOrder E ->
  OpenAI_makeMessages E messages = Ok result ->
  Ollama.makeMessages C E messages = Ok out ->
  In message result ->
  Js.get message "content" = JArr parts ->
  mapM Ollama.imagesOfItem parts = Ok imgs ->
  (visionEnabled C = true -> concat imgs = map JStr urls) ->
  exists emitted,
    In emitted out /\
    Js.get emitted "role" = Js.get message "role" /\
    Js.get emitted "content" =
      JStr (Js.join nl3
              (map (fun item => Js.get item "text") (filter isTextBlock parts)))
    /\
    Js.get emitted "images" =
      if visionEnabled C
      then JArr (flat_map (Claimed.bareImage E) urls)
      else JUndefined.
Proof.
  intros Hfair Hsuper Hrun Hin Hcontent Himgs Hurls.
  unfold Ollama.makeMessages in Hrun. rewrite Hsuper in Hrun.
  cbn [bind] in Hrun.
  destruct (mapM (Ollama.processMessage C E) result) as [pushed|e] eqn:Hpushed;
    cbn [bind] in Hrun; [|discriminate].
  injection Hrun as <-.
  destruct (mapM_In _ _ _ message Hpushed Hin) as [p [Hp Hinp]].
  destruct (get_defined_is_object message "content"
              ltac:(rewrite Hcontent; discriminate)) as [fs ->].
  unfold Ollama.processMessage in Hp.
  change (Js.prop (JObj fs) "content") with (Ok (Js.get (JObj fs) "content"))
    in Hp.
  cbn [bind] in Hp. rewrite Hcontent in Hp.
  rewrite (text_parts_of_objects _ (imagesOfItem_objects _ _ Himgs)) in Hp.
  cbn [bind] in Hp. rewrite Himgs in Hp. cbn [bind] in Hp.
  destruct (visionEnabled C).
  - rewrite (Hurls eq_refl) in Hp.
    destruct (encodeImages_bare E urls) as [vs [Hvs Hf]].
    rewrite Hvs in Hp. cbn [bind] in Hp. rewrite Hf in Hp.
    injection Hp as <-. eexists. split; [|split; [|split]].
    + apply (pushed_in_output E pushed _ Hfair). right. exact Hinp.
    + cbn [Js.set Js.get]. rewrite !lookup_assign. reflexivity.
    + cbn [Js.set Js.get]. rewrite !lookup_assign. reflexivity.
    + cbn [Js.set Js.get]. rewrite !lookup_assign. reflexivity.
  - injection Hp as <-. eexists. split; [|split; [|split]].
    + apply (pushed_in_output E pushed _ Hfair). left. exact Hinp.
    + cbn [Js.set Js.get]. rewrite !lookup_assign. reflexivity.
    + cbn [Js.set Js.get]. rewrite !lookup_assign. reflexivity.
    + cbn [Js.set Js.get]. rewrite !lookup_assign. reflexivity.
Qed.

Lemma ollama_array_message_emitted_witness :
  exists emitted,
    In emitted [JObj [("role", JStr "user");
                      ("content", JStr "compare these");
                      ("images", JArr [JStr "CCCC"; JStr "BBBB"])]] /\
    Js.get emitted "role" = JStr "user" /\
    Js.get emitted "content" = JStr "compare these" /\
    Js.get emitted "images" = JArr [JStr "CCCC"; JStr "BBBB"].
Proof.
  exact (ollama_array_message_emitted (Sample.context true false) Sample.host
           [Sample.pictures] [Sample.pictures] _ _ Sample.pictures _
           [Sample.remoteUrl; "AAAA"; "data:image/png;base64,CCCC";
            Sample.otherUrl]
           (fun l => Permutation_refl l) eq_refl eq_refl
           (or_introl eq_refl) eq_refl eq_refl (fun _ => eq_refl)).
Defined.

(** C8 as stated fails: under vision a message with four images comes out
    with two.  The remote image that cannot be fetched and the image that
    is a base64 string already are not in [images]. *)
Lemma ollama_images_left_out :
  visionEnabled (Sample.context true false) = true /\
  Ollama.makeMessages (Sample.context true false) Sample.host
    [Sample.pictures] =
    Ok [JObj [("role", JStr "user");
              ("content", JStr "compare these");
              ("images", JArr [JStr "CCCC"; JStr "BBBB"])]].
Proof.
  split; reflexivity.
Qed.

(** ** Further facts on the code *)

Lemma filterM_pure {A : Type} (f : A -> Result bool) (g : A -> bool)
  (l : list A) :
  (forall x, In x l -> f x = Ok (g x)) -> filterM f l = Ok (filter g l).
Proof.
  induction l as [|x r IH]; intros H; simpl.
  - reflexivity.
  - rewrite (H x (or_introl eq_refl)). simpl.
    rewrite IH by (intros y Hy; apply H; right; exact Hy).
    simpl. destruct (g x); reflexivity.
Qed.

Lemma mapM_total {A B : Type} (f : A -> Result B) (l : list A) :
  (forall x, In x l -> isOk (f x) = true) -> exists l', mapM f l = Ok l'.
Proof.
  induction l as [|x r IH]; intros H; simpl.
  - eexists; reflexivity.
  - specialize (H x (or_introl eq_refl)) as Hx.
    destruct (f x) as [y|e]; [|discriminate].
    destruct IH as [ys ->]; [intros z Hz; apply H; right; exact Hz|].
    eexists; reflexivity.
Qed.

(** The other direction of C3: with tool use enabled, a tool host that lists
    well-formed tools and one of them not used yet, [makePayload] returns a
    payload that has the [tools] key, one entry for each unused tool. *)
Lemma anthropic_payload_includes_unused_tools
  (C : Context) (E : Host) (messages : list JsValue)
  (msgs : list JsValue * list string) (tools : JsValue) (all : list JsValue) :
  Anthropic.makeMessages C E messages = Ok msgs ->
  toolsEnabled C = true ->
  listTools C = Ok tools ->
  Js.get tools "tools" = JArr all ->
  Forall (fun tool => Js.nullish tool = false /\
                      Js.nullish (Js.get tool "inputSchema") = false) all ->
  existsb (fun tool => negb (Js.includes (usedToolNames C) (Js.get tool "name")))
          all = true ->
  exists payload unusedTools,
    Anthropic.makePayload C E messages = Ok payload /\
    Js.get payload "tools" = JArr unusedTools /\
    List.length unusedTools =
      List.length
        (filter (fun tool =>
                   negb (Js.includes (usedToolNames C) (Js.get tool "name")))
                all).
Proof.
  intros Hmsgs Henabled Hlist Hall Hwf Hsome.
  rewrite Forall_forall in Hwf.
  unfold Anthropic.makePayload. rewrite Hmsgs, Henabled, Hlist. cbn [bind].
  destruct (get_defined_is_object tools "tools"
              ltac:(rewrite Hall; discriminate)) as [fs ->].
  cbn [Js.truthy]. rewrite Hall.
  rewrite (filterM_pure _
             (fun tool =>
                negb (Js.includes (usedToolNames C) (Js.get tool "name")))).
  2:{ intros tool Hin. rewrite (prop_ok _ _ (proj1 (Hwf tool Hin))).
      reflexivity. }
  cbn [bind].
  set (unused := filter _ all).
  destruct (mapM_total (Anthropic.makeTool E) unused) as [unusedTools Hmade].
  { intros tool Hin. apply filter_In in Hin. destruct Hin as [Hin _].
    unfold Anthropic.makeTool.
    rewrite (prop_ok _ _ (proj1 (Hwf tool Hin))). cbn [bind].
    rewrite (prop_ok _ _ (proj2 (Hwf tool Hin))). reflexivity. }
  rewrite Hmade. cbn [bind].
  assert (Hlen : (0 <? List.length unusedTools)%nat = true).
  { apply Nat.ltb_lt. rewrite (mapM_length _ _ _ Hmade).
    apply existsb_exists in Hsome. destruct Hsome as [tool [Hin Hunused]].
    assert (Hu : In tool unused) by (apply filter_In; split; assumption).
    destruct unused; [contradiction | simpl; lia]. }
  rewrite Hlen. cbn [bind].
  eexists. exists unusedTools.
  split; [reflexivity|]. split; [|exact (mapM_length _ _ _ Hmade)].
  destruct (Js.truthy (maxTokens C)), (isBlank E (systemMessage C));
    reflexivity.
Qed.

(** Under vision the Ollama [makeMessages] pushes the messages with string
    content first: a message with array content that came before them ends
    up after them. *)
Example ollama_order_under_vision :
  Ollama.makeMessages (Sample.context true false) Sample.host
    [Sample.pictures;
     JObj [("role", JStr "assistant"); ("content", JStr "they differ")]] =
    Ok [JObj [("role", JStr "assistant"); ("content", JStr "they differ")];
        JObj [("role", JStr "user");
              ("content", JStr "compare these");
              ("images", JArr [JStr "CCCC"; JStr "BBBB"])]].
Proof. reflexivity. Qed.

(** A tool result that is a string goes into the [tool_result] block as it
    is; one that is [null] makes the read of [isError] throw. *)
Example anthropic_string_tool_result :
  Anthropic.makeToolMessages Sample.host Sample.tool (JStr "done") None =
    Ok [JObj [("role", JStr "assistant");
              ("content", JArr [Anthropic.toolUseBlock Sample.tool])];
        JObj [("role", JStr "user");
              ("content",
               JArr [JObj [("type", JStr "tool_result");
                           ("tool_use_id", JStr "toolu_01");
                           ("content", JStr "done")]])]].
Proof. reflexivity. Qed.

Example anthropic_null_tool_result :
  Anthropic.makeToolMessages Sample.host Sample.tool JNull None
    = Throw "TypeError".
Proof. reflexivity. Qed.

(** * Further properties of the adapters *)

(** ** Tool messages: shape *)

(** Whatever the tool result, the Anthropic [makeToolMessages] returns two
    messages and no more: an assistant message whose content ends with the
    [tool_use] block of the tool, after the preceding text when one was given
    and is not empty, and a user message with an array as content. *)
Theorem anthropic_tool_messages_shape
  (E : Host) (tool : ITool) (toolResult : JsValue) (content : option string)
  (out : list JsValue) :
  Anthropic.makeToolMessages E tool toolResult content = Ok out ->
  exists before parts,
    out = [JObj [("role", JStr "assistant");
                 ("content", JArr (before ++ [Anthropic.toolUseBlock tool]))];
           JObj [("role", JStr "user"); ("content", JArr parts)]] /\
    (before = [] \/
     exists text, content = Some text /\ text <> "" /\
                  before = [JObj [("type", JStr "text"); ("text", JStr text)]]).
Proof.
  unfold Anthropic.makeToolMessages.
  destruct (Js.prop toolResult "isError") as [isError|e]; cbn [bind];
    [|discriminate].
  match goal with
  | |- context [bind (if ?c then ?a else ?b) _] =>
      destruct (if c then a else b) as [parts|e]
  end; cbn [bind]; [|discriminate].
  intros H. injection H as <-.
  destruct content as [text|].
  - change (Js.truthy (JStr text)) with (negb (String.eqb text "")).
    destruct (String.eqb_spec text "") as [Hempty|Htext]; cbn [negb].
    + exists [], parts. split; [reflexivity | left; reflexivity].
    + exists [Anthropic.textBlock (JStr text)], parts.
      split; [reflexivity|]. right. exists text. repeat split. exact Htext.
  - exists [], parts. split; [reflexivity | left; reflexivity].
Qed.

Lemma anthropic_tool_messages_shape_witness :
  exists before parts,
    [JObj [("role", JStr "assistant");
           ("content",
            JArr [JObj [("type", JStr "text"); ("text", JStr "Reading.")];
                  Anthropic.toolUseBlock Sample.tool])];
     JObj [("role", JStr "user");
           ("content",
            JArr [JObj [("type", JStr "tool_result");
                        ("tool_use_id", JStr "toolu_01");
                        ("content", JStr "hello")]])]] =
    [JObj [("role", JStr "assistant");
           ("content", JArr (before ++ [Anthropic.toolUseBlock Sample.tool]))];
     JObj [("role", JStr "user"); ("content", JArr parts)]] /\
    (before = [] \/
     exists text, Some "Reading." = Some text /\ text <> "" /\
                  before = [JObj [("type", JStr "text"); ("text", JStr text)]]).
Proof.
  exact (anthropic_tool_messages_shape Sample.host Sample.tool
           Sample.textResult (Some "Reading.") _ eq_refl).
Defined.

(** Whatever the tool result, the Ollama [makeToolMessages] returns the
    assistant message with the one tool call and the tool message, both
    carrying the id and the name of the tool, and at most one message more:
    a user message, which comes only together with a tool message that
    holds the placeholder note and nothing else. *)
Theorem ollama_tool_messages_shape
  (E : Host) (tool : ITool) (toolResult : JsValue) (out : list JsValue) :
  Ollama.makeToolMessages E tool toolResult = Ok out ->
  exists toolContent rest,
    out = JObj [("role", JStr "assistant");
                ("tool_calls",
                 JArr [JObj [("id", JStr (id tool));
                             ("type", JStr "function");
                             ("function",
                              JObj [("arguments", args tool);
                                    ("name", JStr (name tool))])]])]
          :: JObj [("role", JStr "tool");
                   ("name", JStr (name tool));
                   ("content", JArr toolContent);
                   ("tool_call_id", JStr (id tool))]
          :: rest /\
    (rest = [] \/
     exists rich,
       rest = [JObj [("role", JStr "user"); ("content", JArr rich)]] /\
       toolContent =
         [JObj [("type", JStr "text");
                ("text",
                 JSON_stringify E
                   (JObj [("message", JStr Ollama.placeholderNote)]))]]).
Proof.
  unfold Ollama.makeToolMessages.
  destruct (Js.prop toolResult "isError") as [isError|e] eqn:Hprop;
    cbn [bind]; [|discriminate].
  destruct (Js.truthy isError) eqn:HisError; cbn [negb andb bind].
  { intros H. injection H as <-. eexists. exists [].
    split; [reflexivity | left; reflexivity]. }
  destruct (Js.truthy (Js.get toolResult "content")) eqn:Hcontent;
    cbn [bind].
  2:{ intros H. injection H as <-. eexists. exists [].
      split; [reflexivity | left; reflexivity]. }
  assert (Hstr : Js.isString toolResult = false).
  { destruct toolResult; simpl in Hcontent; try discriminate; reflexivity. }
  rewrite Hstr.
  destruct (mapM _ _) as [convertedBlocks|e]; cbn [bind]; [|discriminate].
  destruct (everyM typeIsText convertedBlocks) as [[|]|e]; cbn [bind];
    [| |discriminate];
    (destruct (mapM (contentBlockToLegacyMessageContent E) convertedBlocks)
       as [legacy|e]; cbn [bind]; [|discriminate]);
    intros H; injection H as <-.
  - eexists. exists []. split; [reflexivity | left; reflexivity].
  - eexists. eexists. split; [reflexivity|]. right.
    exists legacy. split; reflexivity.
Qed.

Lemma ollama_tool_messages_shape_witness :
  exists out toolContent rest,
    Ollama.makeToolMessages Sample.host Sample.tool Sample.imageResult = Ok out
    /\ out = JObj [("role", JStr "assistant");
                   ("tool_calls",
                    JArr [JObj [("id", JStr "toolu_01");
                                ("type", JStr "function");
                                ("function",
                                 JObj [("arguments", args Sample.tool);
                                       ("name", JStr "fs--read_file")])]])]
             :: JObj [("role", JStr "tool");
                      ("name", JStr "fs--read_file");
                      ("content", JArr toolContent);
                      ("tool_call_id", JStr "toolu_01")]
             :: rest
    /\ List.length rest = 1%nat.
Proof.
  destruct (ollama_tool_messages_shape Sample.host Sample.tool
              Sample.imageResult _ eq_refl)
    as [toolContent [rest [Hout Hrest]]].
  eexists. exists toolContent, rest. split; [reflexivity|].
  split; [exact Hout|].
  injection Hout as _ <-. reflexivity.
Defined.

(** ** Tool messages: the kinds of tool result *)

(** A tool result that is a string is passed on as it is, by both adapters
    and whatever the converter does: it is the content of the one
    [tool_result] block, and the text of the one part of the tool message. *)
Theorem string_tool_result_verbatim (E : Host) (tool : ITool) (s : string) :
  Anthropic.makeToolMessages E tool (JStr s) None =
    Ok [JObj [("role", JStr "assistant");
              ("content", JArr [Anthropic.toolUseBlock tool])];
        JObj [("role", JStr "user");
              ("content",
               JArr [JObj [("type", JStr "tool_result");
                           ("tool_use_id", JStr (id tool));
                           ("content", JStr s)]])]]
  /\
  exists assistant,
    Ollama.makeToolMessages E tool (JStr s) =
      Ok [assistant;
          JObj [("role", JStr "tool");
                ("name", JStr (name tool));
                ("content",
                 JArr [JObj [("type", JStr "text"); ("text", JStr s)]]);
                ("tool_call_id", JStr (id tool))]].
Proof.
  split; [reflexivity|]. eexists. reflexivity.
Qed.

(** A tool result that is [null] or [undefined] makes both adapters throw:
    no message is produced for it. *)
Theorem nullish_tool_result_throws
  (E : Host) (tool : ITool) (toolResult : JsValue) (content : option string) :
  Js.nullish toolResult = true ->
  Anthropic.makeToolMessages E tool toolResult content = Throw "TypeError" /\
  Ollama.makeToolMessages E tool toolResult = Throw "TypeError".
Proof.
  intros H. destruct toolResult; try discriminate; split; reflexivity.
Qed.

Lemma nullish_tool_result_throws_witness :
  Anthropic.makeToolMessages Sample.host Sample.tool JUndefined None
    = Throw "TypeError" /\
  Ollama.makeToolMessages Sample.host Sample.tool JUndefined
    = Throw "TypeError".
Proof.
  exact (nullish_tool_result_throws Sample.host Sample.tool JUndefined None
           eq_refl).
Defined.

(** A tool result without error whose [content] is truthy but holds no
    block (a string, an object, a number, an empty array): the content is
    not passed on.  Anthropic sends a [tool_result] block with the empty
    string, Ollama a tool message with an empty content array. *)
Theorem tool_result_content_without_blocks
  (E : Host) (tool : ITool) (toolResult : JsValue) :
  fairOrder E ->
  Js.truthy (Js.get toolResult "isError") = false ->
  Js.truthy (Js.get toolResult "content") = true ->
  (forall blocks, Js.get toolResult "content" = JArr blocks -> blocks = []) ->
  Anthropic.makeToolMessages E tool toolResult None =
    Ok [JObj [("role", JStr "assistant");
              ("content", JArr [Anthropic.toolUseBlock tool])];
        JObj [("role", JStr "user");
              ("content",
               JArr [JObj [("type", JStr "tool_result");
                           ("tool_use_id", JStr (id tool));
                           ("content", JStr "")]])]]
  /\
  exists assistant,
    Ollama.makeToolMessages E tool toolResult =
      Ok [assistant;
          JObj [("role", JStr "tool");
                ("name", JStr (name tool));
                ("content", JArr []);
                ("tool_call_id", JStr (id tool))]].
Proof.
  intros Hfair HisError Hcontent Hblocks.
  tool_result_is_object Hcontent.
  assert (Hparts : match Js.get (JObj fs) "content" with
                   | JArr l => l
                   | _ => []
                   end = []).
  { destruct (Js.get (JObj fs) "content"); try reflexivity.
    apply Hblocks. reflexivity. }
  assert (Hnone : completionOrder E [] = []).
  { apply Permutation_nil. apply Hfair. }
  split.
  - unfold Anthropic.makeToolMessages.
    change (Js.isString (JObj fs)) with false.
    change (Js.prop (JObj fs) "isError") with (Ok (Js.get (JObj fs) "isError")).
    cbn [bind]. rewrite HisError, Hcontent, Hparts. cbn [negb andb mapM bind].
    rewrite Hnone. reflexivity.
  - unfold Ollama.makeToolMessages.
    change (Js.isString (JObj fs)) with false.
    change (Js.prop (JObj fs) "isError") with (Ok (Js.get (JObj fs) "isError")).
    cbn [bind]. rewrite HisError, Hcontent, Hparts. cbn [negb andb mapM bind].
    eexists. reflexivity.
Qed.

Lemma tool_result_content_without_blocks_witness :
  Anthropic.makeToolMessages Sample.host Sample.tool
    (JObj [("content", JStr "42 files")]) None =
    Ok [JObj [("role", JStr "assistant");
              ("content", JArr [Anthropic.toolUseBlock Sample.tool])];
        JObj [("role", JStr "user");
              ("content",
               JArr [JObj [("type", JStr "tool_result");
                           ("tool_use_id", JStr "toolu_01");
                           ("content", JStr "")]])]].
Proof.
  refine (proj1 (tool_result_content_without_blocks Sample.host Sample.tool
                   (JObj [("content", JStr "42 files")]) _ _ _ _)).
  - intros l. apply Permutation_refl.
  - reflexivity.
  - reflexivity.
  - intros blocks H. discriminate.
Defined.

(** A tool result that is an object with neither an error nor a content (no
    [content] key, or a falsy one such as the empty string): Anthropic
    answers the tool call with a user message whose content array is empty,
    Ollama with a tool message whose content array is empty. *)
Theorem tool_result_without_content
  (E : Host) (tool : ITool) (fields : list (string * JsValue)) :
  Js.truthy (Js.get (JObj fields) "isError") = false ->
  Js.truthy (Js.get (JObj fields) "content") = false ->
  Anthropic.makeToolMessages E tool (JObj fields) None =
    Ok [JObj [("role", JStr "assistant");
              ("content", JArr [Anthropic.toolUseBlock tool])];
        JObj [("role", JStr "user"); ("content", JArr [])]]
  /\
  exists assistant,
    Ollama.makeToolMessages E tool (JObj fields) =
      Ok [assistant;
          JObj [("role", JStr "tool");
                ("name", JStr (name tool));
                ("content", JArr []);
                ("tool_call_id", JStr (id tool))]].
Proof.
  intros HisError Hcontent. split.
  - unfold Anthropic.makeToolMessages.
    change (Js.isString (JObj fields)) with false.
    change (Js.prop (JObj fields) "isError")
      with (Ok (Js.get (JObj fields) "isError")).
    cbn [bind]. rewrite HisError, Hcontent. reflexivity.
  - unfold Ollama.makeToolMessages.
    change (Js.isString (JObj fields)) with false.
    change (Js.prop (JObj fields) "isError")
      with (Ok (Js.get (JObj fields) "isError")).
    cbn [bind]. rewrite HisError, Hcontent. eexists. reflexivity.
Qed.

Lemma tool_result_without_content_witness :
  Anthropic.makeToolMessages Sample.host Sample.tool
    (JObj [("isError", JBool false)]) None =
    Ok [JObj [("role", JStr "assistant");
              ("content", JArr [Anthropic.toolUseBlock Sample.tool])];
        JObj [("role", JStr "user"); ("content", JArr [])]].
Proof.
  exact (proj1 (tool_result_without_content Sample.host Sample.tool
                  [("isError", JBool false)] eq_refl eq_refl)).
Defined.

(** A tool result whose blocks all convert to text blocks.  Anthropic sends
    one [tool_result] block, whose content is the texts joined by three
    newlines in the order the conversions finished, and no placeholder. *)
Theorem anthropic_text_blocks_joined
  (E : Host) (tool : ITool) (toolResult : JsValue)
  (content blocks : list JsValue) :
  fairOrder E ->
  Js.truthy (Js.get toolResult "isError") = false ->
  Js.get toolResult "content" = JArr content ->
  mapM (fun block => MCP_convert E block (resolveResource E tool)) content
    = Ok blocks ->
  forallb isTextBlock blocks = true ->
  Anthropic.makeToolMessages E tool toolResult None =
    Ok [JObj [("role", JStr "assistant");
              ("content", JArr [Anthropic.toolUseBlock tool])];
        JObj [("role", JStr "user");
              ("content",
               JArr [JObj [("type", JStr "tool_result");
                           ("tool_use_id", JStr (id tool));
                           ("content",
                            JStr (String.concat nl3
                                    (map (fun item =>
                                            Js.joinItem (Js.get item "text"))
                                         (completionOrder E blocks))))]])]]
  /\ Permutation blocks (completionOrder E blocks).
Proof.
  intros Hfair HisError Hcontent Hconv Htext.
  split; [|apply Hfair].
  tool_result_is_object Hcontent.
  unfold Anthropic.makeToolMessages.
  change (Js.isString (JObj fs)) with false.
  change (Js.prop (JObj fs) "isError") with (Ok (Js.get (JObj fs) "isError")).
  cbn [bind]. rewrite HisError, Hcontent. cbn [Js.truthy negb andb].
  rewrite Hconv. cbn [bind].
  rewrite (everyM_all_text (completionOrder E blocks))
    by (rewrite <- (forallb_Permutation isTextBlock _ _ (Hfair blocks));
        exact Htext).
  cbn [bind]. unfold Js.join. rewrite map_map. reflexivity.
Qed.

Lemma anthropic_text_blocks_joined_witness :
  Anthropic.makeToolMessages Sample.host Sample.tool
    (JObj [("content",
            JArr [JObj [("type", JStr "text"); ("text", JStr "one")];
                  JObj [("type", JStr "text"); ("text", JStr "two")]])])
    None =
    Ok [JObj [("role", JStr "assistant");
              ("content", JArr [Anthropic.toolUseBlock Sample.tool])];
        JObj [("role", JStr "user");
              ("content",
               JArr [JObj [("type", JStr "tool_result");
                           ("tool_use_id", JStr "toolu_01");
                           ("content",
                            JStr ("one" ++ nl3 ++ "two")%string)]])]].
Proof.
  refine (proj1 (anthropic_text_blocks_joined Sample.host Sample.tool
                   (JObj [("content",
                           JArr [JObj [("type", JStr "text");
                                       ("text", JStr "one")];
                                 JObj [("type", JStr "text");
                                       ("text", JStr "two")]])])
                   [JObj [("type", JStr "text"); ("text", JStr "one")];
                    JObj [("type", JStr "text"); ("text", JStr "two")]]
                   [JObj [("type", JStr "text"); ("text", JStr "one")];
                    JObj [("type", JStr "text"); ("text", JStr "two")]]
                   _ _ _ _ _)).
  - intros l. apply Permutation_refl.
  - reflexivity.
  - reflexivity.
  - reflexivity.
  - reflexivity.
Defined.

(** The same tool result with Ollama: two messages and no supplement; the
    tool message holds the legacy form of each block, in the order of the
    tool result. *)
Theorem ollama_text_blocks_in_order
  (E : Host) (tool : ITool) (toolResult : JsValue)
  (content blocks : list JsValue) (legacy : JsValue -> JsValue) :
  Js.truthy (Js.get toolResult "isError") = false ->
  Js.get toolResult "content" = JArr content ->
  mapM (fun block => MCP_convert E block (resolveResource E tool)) content
    = Ok blocks ->
  forallb isTextBlock blocks = true ->
  (forall item, In item blocks ->
                contentBlockToLegacyMessageContent E item = Ok (legacy item)) ->
  exists assistant,
    Ollama.makeToolMessages E tool toolResult =
      Ok [assistant;
          JObj [("role", JStr "tool");
                ("name", JStr (name tool));
                ("content", JArr (map legacy blocks));
                ("tool_call_id", JStr (id tool))]].
Proof.
  intros HisError Hcontent Hconv Htext Hlegacy.
  tool_result_is_object Hcontent.
  unfold Ollama.makeToolMessages.
  change (Js.isString (JObj fs)) with false.
  change (Js.prop (JObj fs) "isError") with (Ok (Js.get (JObj fs) "isError")).
  cbn [bind]. rewrite HisError, Hcontent. cbn [Js.truthy negb andb].
  rewrite Hconv. cbn [bind]. rewrite (everyM_all_text blocks Htext).
  cbn [bind]. rewrite (mapM_pure _ legacy _ Hlegacy). eexists. reflexivity.
Qed.

Lemma ollama_text_blocks_in_order_witness :
  exists assistant,
    Ollama.makeToolMessages Sample.host Sample.tool Sample.textResult =
      Ok [assistant;
          JObj [("role", JStr "tool");
                ("name", JStr "fs--read_file");
                ("content",
                 JArr [JObj [("type", JStr "text"); ("text", JStr "hello")]]);
                ("tool_call_id", JStr "toolu_01")]].
Proof.
  exact (ollama_text_blocks_in_order Sample.host Sample.tool Sample.textResult
           [JObj [("type", JStr "text"); ("text", JStr "hello")]]
           [JObj [("type", JStr "text"); ("text", JStr "hello")]]
           (fun item => item) eq_refl eq_refl eq_refl eq_refl
           (fun _ _ => eq_refl)).
Defined.

(** ** The Anthropic adapter: prompts, history and content parts *)

Lemma mapM_isOk {A B : Type} (f : A -> Result B) (l : list A) :
  isOk (mapM f l) = forallb (fun x => isOk (f x)) l.
Proof.
  induction l as [|x r IH]; simpl.
  - reflexivity.
  - destruct (f x) as [y|e]; simpl; [|reflexivity].
    rewrite <- IH. destruct (mapM f r); reflexivity.
Qed.

Lemma mapM_Forall {A B : Type} (f : A -> Result B) (P : B -> Prop)
  (l : list A) (l' : list B) :
  (forall x y, In x l -> f x = Ok y -> P y) -> mapM f l = Ok l' -> Forall P l'.
Proof.
  revert l'. induction l as [|x r IH]; intros l' HP H; simpl in H.
  - injection H as <-. constructor.
  - destruct (f x) as [y|e] eqn:Hx; simpl in H; [|discriminate].
    destruct (mapM f r) as [ys|e]; simpl in H; [|discriminate].
    injection H as <-. constructor.
    + apply (HP x y); [left; reflexivity | exact Hx].
    + apply IH; [|reflexivity]. intros z w Hz. apply HP. right. exact Hz.
Qed.

Lemma forallb_pointwise {A : Type} (f g : A -> bool) (l : list A) :
  (forall x, f x = g x) -> forallb f l = forallb g l.
Proof.
  intros H. induction l as [|x r IH]; simpl.
  - reflexivity.
  - rewrite H, IH. reflexivity.
Qed.

(** Without vision [convertPromptContent] gives the prompt with its tags
    stripped and cannot fail.  Under vision it gives an array with one block
    for each item of the prompt, and it fails exactly when some item is
    neither a text nor an image, or is a remote image that [getBase64]
    cannot get. *)
Theorem anthropic_prompt_conversion
  (C : Context) (E : Host) (content : string) :
  (visionEnabled C = false ->
   Anthropic.convertPromptContent C E content =
     Ok (JStr (stripHtmlTags E content)))
  /\
  (visionEnabled C = true ->
   isOk (Anthropic.convertPromptContent C E content) =
     forallb (fun item =>
                if String.eqb (item_type item) "image"
                then if isStr (item_dataType item) "URL"
                     then isOk (getBase64 E (item_data item))
                     else true
                else String.eqb (item_type item) "text")
             (splitByImg E content)
   /\
   forall v, Anthropic.convertPromptContent C E content = Ok v ->
             exists blocks,
               v = JArr blocks /\
               List.length blocks = List.length (splitByImg E content)).
Proof.
  unfold Anthropic.convertPromptContent. split; intros Hvision;
    rewrite Hvision; [reflexivity|].
  split.
  - match goal with
    | |- isOk (bind (mapM ?f ?l) _) = _ =>
        transitivity (isOk (mapM f l));
        [destruct (mapM f l); reflexivity | rewrite mapM_isOk]
    end.
    apply forallb_pointwise. intros item.
    destruct (String.eqb (item_type item) "image").
    + destruct (isStr (item_dataType item) "URL"); [|reflexivity].
      destruct (getBase64 E (item_data item)); reflexivity.
    + destruct (String.eqb (item_type item) "text"); reflexivity.
  - intros v. destruct (mapM _ (splitByImg E content)) as [blocks|e] eqn:Hmap;
      cbn [bind]; [|discriminate].
    intros H. injection H as <-. exists blocks.
    split; [reflexivity | exact (mapM_length _ _ _ Hmap)].
Qed.

Lemma anthropic_prompt_conversion_witness :
  Anthropic.convertPromptContent (Sample.context false false) Sample.host
    "hello" = Ok (JStr "hello") /\
  isOk (Anthropic.convertPromptContent (Sample.context true false) Sample.host
          Sample.promptText) = false.
Proof.
  split.
  - exact (proj1 (anthropic_prompt_conversion (Sample.context false false)
                    Sample.host "hello") eq_refl).
  - exact (proj1 (proj2 (anthropic_prompt_conversion
                           (Sample.context true false) Sample.host
                           Sample.promptText) eq_refl)).
Defined.

(** The stored exchanges come first.  When none of them has structured
    prompts, each gives a user message with its prompt and an assistant
    message with its reply, in the order of the history, and the new
    messages follow. *)
Theorem anthropic_history_precedes_new_messages
  (C : Context) (E : Host) (messages : list JsValue)
  (processed : list (JsValue * list string)) :
  Forall (fun msg => Js.nullish msg = false /\
                     Js.truthy (Js.get msg "structuredPrompts") = false)
         (ctxMessages C) ->
  mapM (Anthropic.processMessage C E) messages = Ok processed ->
  Anthropic.makeMessages C E messages =
    Ok (flat_map (fun msg =>
                    [JObj [("role", JStr "user");
                           ("content", Js.get msg "prompt")];
                     JObj [("role", JStr "assistant");
                           ("content", Js.get msg "reply")]])
                 (ctxMessages C)
        ++ map fst processed,
        concat (map snd processed)).
Proof.
  intros Hctx Hnew. rewrite Forall_forall in Hctx.
  unfold Anthropic.makeMessages.
  rewrite (mapM_pure _
             (fun msg =>
                [JObj [("role", JStr "user"); ("content", Js.get msg "prompt")];
                 JObj [("role", JStr "assistant");
                       ("content", Js.get msg "reply")]])).
  - cbn [bind]. rewrite Hnew. cbn [bind].
    rewrite <- flat_map_concat_map. reflexivity.
  - intros msg Hin. destruct (Hctx msg Hin) as [Hmsg Hsp].
    unfold Anthropic.ctxToMessages. rewrite (prop_ok _ _ Hmsg). cbn [bind].
    rewrite Hsp. reflexivity.
Qed.

Lemma anthropic_history_precedes_new_messages_witness :
  Anthropic.makeMessages Stored.context Sample.host
    [JObj [("role", JStr "user"); ("content", JStr "and 3+3?")]] =
    Ok ([JObj [("role", JStr "user"); ("content", JStr "hi")];
         JObj [("role", JStr "assistant"); ("content", JStr "hello")];
         JObj [("role", JStr "user"); ("content", JStr "2+2?")];
         JObj [("role", JStr "assistant"); ("content", JStr "4")];
         JObj [("role", JStr "user"); ("content", JStr "and 3+3?")]],
        []).
Proof.
  refine (anthropic_history_precedes_new_messages Stored.context Sample.host
            [JObj [("role", JStr "user"); ("content", JStr "and 3+3?")]]
            [(JObj [("role", JStr "user"); ("content", JStr "and 3+3?")], [])]
            _ eq_refl).
  repeat constructor.
Defined.

(** A stored exchange whose structured prompts do not parse, or parse to
    something that is no array, makes [makeMessages] throw, whatever the new
    messages are. *)
Theorem anthropic_history_unparsable
  (C : Context) (E : Host) (messages : list JsValue) (msg : JsValue) :
  In msg (ctxMessages C) ->
  Js.truthy (Js.get msg "structuredPrompts") = true ->
  (forall prompts,
     JSON_parse E (Js.get msg "structuredPrompts") <> Ok (JArr prompts)) ->
  isOk (Anthropic.makeMessages C E messages) = false.
Proof.
  intros Hin Hsp Hparse.
  assert (Hthrow : isOk (mapM (Anthropic.ctxToMessages E) (ctxMessages C))
                   = false).
  { apply (mapM_throws _ _ msg Hin).
    unfold Anthropic.ctxToMessages.
    destruct (get_defined_is_object msg "structuredPrompts"
                ltac:(intros Hu; rewrite Hu in Hsp; discriminate)) as [fs ->].
    change (Js.prop (JObj fs) "structuredPrompts")
      with (Ok (Js.get (JObj fs) "structuredPrompts")).
    cbn [bind]. rewrite Hsp.
    destruct (JSON_parse E (Js.get (JObj fs) "structuredPrompts"))
      as [[| | | | |prompts|]|e] eqn:Hp; try reflexivity.
    exfalso. exact (Hparse prompts eq_refl). }
  unfold Anthropic.makeMessages.
  destruct (mapM (Anthropic.ctxToMessages E) (ctxMessages C));
    [discriminate | reflexivity].
Qed.

Lemma anthropic_history_unparsable_witness :
  isOk (Anthropic.makeMessages Stored.brokenContext Sample.host
          [JObj [("role", JStr "user"); ("content", JStr "again")]]) = false.
Proof.
  refine (anthropic_history_unparsable Stored.brokenContext Sample.host _
            Stored.broken _ _ _).
  - left. reflexivity.
  - reflexivity.
  - intros prompts H. discriminate.
Defined.

Lemma anthropic_processed_role_not_tool_witness :
  Js.get (JObj [("role", JStr "user"); ("content", JStr "hello")]) "role"
    <> JStr "tool".
Proof.
  exact (anthropic_processed_role_not_tool (Sample.context false false)
           Sample.host
           (JObj [("role", JStr "user"); ("content", JStr "hello")])
           _ [] eq_refl).
Defined.

Lemma convertItem_text_or_image (item part : JsValue) (log : list string) :
  Anthropic.convertItem item = Ok (part, log) ->
  (Js.get part "type" = JStr "text" \/ Js.get part "type" = JStr "image") /\
  (List.length log <= 1)%nat.
Proof.
  unfold Anthropic.convertItem.
  destruct (Js.prop item "type") as [type|e]; cbn [bind]; [|discriminate].
  destruct (isStr type "text");
    [|destruct (isStr type "image_url");
      [|destruct (isStr type "audio")]];
    intros H; injection H as <- <-; simpl; split; auto.
Qed.

Lemma concat_length_bound {A : Type} (ls : list (list A)) :
  Forall (fun l => (List.length l <= 1)%nat) ls ->
  (List.length (concat ls) <= List.length ls)%nat.
Proof.
  induction 1 as [|l r Hl _ IH]; simpl.
  - lia.
  - rewrite length_app. lia.
Qed.

(** A message whose content array [makeMessages] converts keeps the number
    of its parts, and every part that comes out is a text block or an image
    block: no audio part and no part of an unknown type is passed on.  At
    most one warning is logged for each part. *)
Theorem anthropic_converted_parts_are_text_or_image
  (C : Context) (E : Host) (msg out : JsValue) (items : list JsValue)
  (log : list string) :
  Js.get msg "content" = JArr items ->
  isStr (Js.get msg "role") "tool" = false ->
  isStr (Js.get msg "role") "assistant" && Js.truthy (Js.get msg "tool_calls")
    = false ->
  Anthropic.processMessage C E msg = Ok (out, log) ->
  exists parts,
    Js.get out "content" = JArr parts /\
    List.length parts = List.length items /\
    Forall (fun part => Js.get part "type" = JStr "text" \/
                        Js.get part "type" = JStr "image") parts /\
    (List.length log <= List.length items)%nat.
Proof.
  intros Hcontent Hrole Hcalls. unfold Anthropic.processMessage.
  rewrite (get_array_prop msg "content" "role" _ Hcontent). cbn [bind].
  rewrite Hrole, Hcalls, Hcontent.
  destruct (mapM Anthropic.convertItem items) as [converted|e] eqn:Hmap;
    cbn [bind]; [|discriminate].
  intros H. injection H as <- <-.
  assert (Hall : Forall (fun p =>
                           (Js.get (fst p) "type" = JStr "text" \/
                            Js.get (fst p) "type" = JStr "image") /\
                           (List.length (snd p) <= 1)%nat) converted).
  { apply (mapM_Forall _ _ _ _ (fun item p _ Hp =>
             convertItem_text_or_image item (fst p) (snd p)
               ltac:(destruct p; exact Hp)) Hmap). }
  exists (map fst converted). split; [reflexivity|].
  split; [rewrite length_map; exact (mapM_length _ _ _ Hmap)|].
  split.
  - apply Forall_map. apply (Forall_impl _ (fun p H => proj1 H) Hall).
  - rewrite <- (mapM_length _ _ _ Hmap), <- (length_map snd converted).
    apply concat_length_bound. apply Forall_map.
    apply (Forall_impl _ (fun p H => proj2 H) Hall).
Qed.

Lemma anthropic_converted_parts_are_text_or_image_witness :
  exists parts,
    Js.get (JObj [("role", JStr "user");
                  ("content",
                   JArr [JObj [("type", JStr "text"); ("text", JStr "listen")];
                         JObj [("type", JStr "text"); ("text", JStr "")]])])
           "content" = JArr parts /\
    List.length parts = 2%nat /\
    Forall (fun part => Js.get part "type" = JStr "text" \/
                        Js.get part "type" = JStr "image") parts /\
    (1 <= 2)%nat.
Proof.
  exact (anthropic_converted_parts_are_text_or_image
           (Sample.context false false) Sample.host
           (JObj [("role", JStr "user");
                  ("content",
                   JArr [JObj [("type", JStr "text"); ("text", JStr "listen")];
                         JObj [("type", JStr "audio"); ("data", JStr "AAAA")]])])
           _
           [JObj [("type", JStr "text"); ("text", JStr "listen")];
            JObj [("type", JStr "audio"); ("data", JStr "AAAA")]]
           _ eq_refl eq_refl eq_refl eq_refl).
Defined.

(** ** The Anthropic adapter: tools and payload *)

(** The paths through [makePayload] that return a payload *)
Ltac payload_paths C E messages :=
  unfold Anthropic.makePayload;
  destruct (Anthropic.makeMessages C E messages) as [msgs|?] eqn:Hmsgs;
  cbn [bind]; [|discriminate];
  destruct (isBlank E (systemMessage C)) eqn:Hblank; cbn [negb];
  destruct (Js.truthy (maxTokens C)) eqn:Hmax;
  (destruct (toolsEnabled C) eqn:Henabled; cbn [bind];
   [ destruct (listTools C) as [tools|?] eqn:Hlist; cbn [bind];
     [|discriminate];
     destruct (Js.truthy tools) eqn:Htools; cbn [bind];
     [ destruct (Js.get tools "tools") as [| | | | |all|] eqn:Hall;
       cbn [bind]; try discriminate;
       destruct (filterM _ all) as [unused|?] eqn:Hunused; cbn [bind];
       [|discriminate];
       destruct (mapM (Anthropic.makeTool E) unused) as [unusedTools|?]
         eqn:Hmade;
       cbn [bind]; [|discriminate];
       destruct (0 <? List.length unusedTools)%nat eqn:Hlen; cbn [bind]
     | ]
   | ]).

Lemma makeTool_inv (E : Host) (tool out : JsValue) :
  Anthropic.makeTool E tool = Ok out ->
  Js.get out "name" = Js.get tool "name" /\
  Js.get out "description" = Js.get tool "description" /\
  Js.get (Js.get out "input_schema") "type"
    = Js.get (Js.get tool "inputSchema") "type" /\
  Js.truthy (Js.get (Js.get out "input_schema") "properties") = true /\
  Js.truthy (Js.get (Js.get out "input_schema") "required") = true.
Proof.
  unfold Anthropic.makeTool.
  destruct (Js.prop tool "name") as [n|e] eqn:Hn; cbn [bind]; [|discriminate].
  destruct (prop_inv _ _ _ Hn) as [_ ->].
  destruct (Js.prop (Js.get tool "inputSchema") "type") as [t|e] eqn:Ht;
    cbn [bind]; [|discriminate].
  destruct (prop_inv _ _ _ Ht) as [_ ->].
  intros H. injection H as <-. cbn [Js.get Js.lookup String.eqb Ascii.eqb Bool.eqb].
  repeat split; unfold Js.or;
    match goal with
    | |- Js.truthy (if Js.truthy ?v then _ else _) = true =>
        destruct (Js.truthy v) eqn:Hv; [exact Hv | reflexivity]
    end.
Qed.

(** The entry [makeTool] builds for a tool keeps its name, its description
    and the type of its input schema, and always has [properties] and
    [required]: [{}] and [[]] stand in for missing or falsy ones.  A tool
    that is no object, or has no input schema, makes it throw. *)
Theorem anthropic_makeTool_schema (E : Host) (tool : JsValue) :
  (forall out,
     Anthropic.makeTool E tool = Ok out ->
     Js.get out "name" = Js.get tool "name" /\
     Js.get out "description" = Js.get tool "description" /\
     Js.get (Js.get out "input_schema") "type"
       = Js.get (Js.get tool "inputSchema") "type" /\
     Js.truthy (Js.get (Js.get out "input_schema") "properties") = true /\
     Js.truthy (Js.get (Js.get out "input_schema") "required") = true)
  /\
  (Js.truthy (Js.get tool "inputSchema") = true ->
   Js.truthy (Js.get (Js.get tool "inputSchema") "required") = false ->
   exists out,
     Anthropic.makeTool E tool = Ok out /\
     Js.get (Js.get out "input_schema") "required" = JArr [])
  /\
  (Js.nullish tool = true \/ Js.nullish (Js.get tool "inputSchema") = true ->
   Anthropic.makeTool E tool = Throw "TypeError").
Proof.
  split; [exact (makeTool_inv E tool)|]. split.
  - intros Hschema Hrequired.
    destruct (get_defined_is_object tool "inputSchema"
                ltac:(intros Hu; rewrite Hu in Hschema; discriminate))
      as [fs ->].
    unfold Anthropic.makeTool.
    change (Js.prop (JObj fs) "name") with (Ok (Js.get (JObj fs) "name")).
    cbn [bind].
    rewrite prop_ok by (destruct (Js.get (JObj fs) "inputSchema");
                        simpl in Hschema; try discriminate; reflexivity).
    cbn [bind]. eexists. split; [reflexivity|].
    cbn [Js.get Js.lookup String.eqb Ascii.eqb Bool.eqb].
    unfold Js.or. cbn [Js.get] in Hrequired. rewrite Hrequired. reflexivity.
  - intros [Htool|Hschema]; unfold Anthropic.makeTool, Js.prop.
    + rewrite Htool. reflexivity.
    + destruct (Js.nullish tool); [reflexivity|]. cbn [bind].
      rewrite Hschema. reflexivity.
Qed.

Lemma anthropic_makeTool_schema_witness :
  exists out,
    Anthropic.makeTool Sample.host
      (JObj [("name", JStr "fs--list");
             ("description", JStr "list a directory");
             ("inputSchema", JObj [("type", JStr "object")])]) = Ok out /\
    Js.get (Js.get out "input_schema") "required" = JArr [].
Proof.
  exact (proj1 (proj2 (anthropic_makeTool_schema Sample.host
                         (JObj [("name", JStr "fs--list");
                                ("description", JStr "list a directory");
                                ("inputSchema",
                                 JObj [("type", JStr "object")])])))
           eq_refl eq_refl).
Defined.

(** Every payload that [makePayload] returns has the model name, the
    temperature, [stream: true] and the messages of [makeMessages].  It has
    a [system] key exactly when the system message is not blank, and a
    [max_tokens] key exactly when [getMaxTokens()] is truthy; these hold
    the values of the context. *)
Theorem anthropic_payload_fields
  (C : Context) (E : Host) (messages : list JsValue) (payload : JsValue) :
  Anthropic.makePayload C E messages = Ok payload ->
  Js.get payload "model" = modelName C /\
  Js.get payload "temperature" = temperature C /\
  Js.get payload "stream" = JBool true /\
  (exists msgs, Anthropic.makeMessages C E messages = Ok msgs /\
                Js.get payload "messages" = JArr (fst msgs)) /\
  Js.has payload "system" = negb (isBlank E (systemMessage C)) /\
  (isBlank E (systemMessage C) = false ->
   Js.get payload "system" = systemMessage C) /\
  Js.has payload "max_tokens" = Js.truthy (maxTokens C) /\
  (Js.truthy (maxTokens C) = true ->
   Js.get payload "max_tokens" = maxTokens C).
Proof.
  payload_paths C E messages;
    intros H; injection H as <-;
    repeat split; intros; try discriminate; try reflexivity;
    eexists; split; reflexivity.
Qed.

Lemma anthropic_payload_fields_witness :
  exists payload,
    Anthropic.makePayload (Sample.context false true) Sample.host
      [JObj [("role", JStr "user"); ("content", JStr "hello")]] = Ok payload /\
    Js.get payload "stream" = JBool true /\
    Js.has payload "system" = false /\
    Js.get payload "max_tokens" = JNum 1024.
Proof.
  eexists. split; [vm_compute; reflexivity|].
  destruct (anthropic_payload_fields (Sample.context false true) Sample.host
              [JObj [("role", JStr "user"); ("content", JStr "hello")]] _
              eq_refl)
    as [_ [_ [Hstream [_ [Hsystem [_ [_ Hmax]]]]]]].
  split; [exact Hstream|]. split; [exact Hsystem|]. exact (Hmax eq_refl).
Defined.

(** The tools a payload offers are built from tools that were not used yet:
    no entry of [tools] has a name that is among the used tool names. *)
Theorem anthropic_payload_offers_no_used_tool
  (C : Context) (E : Host) (messages : list JsValue) (payload : JsValue)
  (offered : list JsValue) :
  Anthropic.makePayload C E messages = Ok payload ->
  Js.get payload "tools" = JArr offered ->
  Forall (fun entry =>
            Js.includes (usedToolNames C) (Js.get entry "name") = false)
         offered.
Proof.
  payload_paths C E messages;
    intros H; injection H as <-; intros Hoffered;
    try discriminate;
    (injection Hoffered as <-;
     apply (mapM_Forall (Anthropic.makeTool E) _ unused unusedTools);
     [|exact Hmade];
     intros tool entry Hin Hentry;
     destruct (makeTool_inv E tool entry Hentry) as [-> _];
     destruct (filterM_In _ _ _ tool Hunused Hin) as [_ Hf];
     destruct (Js.prop tool "name") as [n|?] eqn:Hn; cbn [bind] in Hf;
     [|discriminate];
     destruct (prop_inv _ _ _ Hn) as [_ ->];
     injection Hf as Hf;
     destruct (Js.includes (usedToolNames C) (Js.get tool "name"));
     [discriminate | reflexivity]).
Qed.

Lemma anthropic_payload_offers_no_used_tool_witness :
  Forall (fun entry =>
            Js.includes ["fs--read_file"] (Js.get entry "name") = false)
         [JObj [("name", JStr "fs--list");
                ("description", JStr "list a directory");
                ("input_schema",
                 JObj [("type", JStr "object");
                       ("properties", JObj []);
                       ("required", JArr [])])]].
Proof.
  exact (anthropic_payload_offers_no_used_tool (Sample.context false true)
           Sample.host
           [JObj [("role", JStr "user"); ("content", JStr "hello")]]
           _ _ eq_refl eq_refl).
Defined.

Lemma anthropic_payload_includes_unused_tools_witness :
  exists payload unusedTools,
    Anthropic.makePayload (Sample.context false true) Sample.host
      [JObj [("role", JStr "user"); ("content", JStr "hello")]] = Ok payload /\
    Js.get payload "tools" = JArr unusedTools /\
    List.length unusedTools = 1%nat.
Proof.
  refine (anthropic_payload_includes_unused_tools (Sample.context false true)
            Sample.host
            [JObj [("role", JStr "user"); ("content", JStr "hello")]]
            _ _ _ eq_refl eq_refl eq_refl eq_refl _ eq_refl).
  repeat constructor.
Defined.

(** ** The Ollama adapter: messages *)

Lemma mapM_In_inv {A B : Type} (f : A -> Result B) (l : list A) (l' : list B)
  (y : B) :
  mapM f l = Ok l' -> In y l' -> exists x, In x l /\ f x = Ok y.
Proof.
  revert l'. induction l as [|a r IH]; intros l' H Hin; simpl in H.
  - injection H as <-. contradiction.
  - destruct (f a) as [b|e] eqn:Hfa; simpl in H; [|discriminate].
    destruct (mapM f r) as [ys|e]; simpl in H; [|discriminate].
    injection H as <-. destruct Hin as [<-|Hin].
    + exists a. split; [left; reflexivity | exact Hfa].
    + destruct (IH ys eq_refl Hin) as [x [Hx Hfx]].
      exists x. split; [right; exact Hx | exact Hfx].
Qed.

Lemma ollama_pushed_string_content
  (C : Context) (E : Host) (message m : JsValue) (p : Ollama.Pushed) :
  Ollama.processMessage C E message = Ok p ->
  In m (Ollama.atOnce p ++ Ollama.afterAwait p) ->
  exists s, Js.get m "content" = JStr s.
Proof.
  unfold Ollama.processMessage.
  destruct (Js.prop message "content") as [content|e] eqn:Hprop;
    cbn [bind]; [|discriminate].
  destruct (prop_inv _ _ _ Hprop) as [_ ->].
  destruct (Js.get message "content") as [| | | |s|parts|] eqn:Hcontent.
  1-4,7: (intros H; injection H as <-; intros Hin; destruct Hin).
  - intros H. injection H as <-. intros [<-|[]]. exists s. exact Hcontent.
  - destruct (get_defined_is_object message "content"
                ltac:(rewrite Hcontent; discriminate)) as [fs ->].
    destruct (filterM _ parts) as [textParts|e]; cbn [bind]; [|discriminate].
    destruct (mapM Ollama.imagesOfItem parts) as [imgs|e]; cbn [bind];
      [|discriminate].
    destruct (visionEnabled C).
    + destruct (mapM (Ollama.encodeImage E) (concat imgs)) as [encoded|e];
        cbn [bind]; [|discriminate].
      intros H. injection H as <-. intros [<-|[]].
      eexists. cbn [Js.set Js.get]. rewrite !lookup_assign. reflexivity.
    + intros H. injection H as <-. intros [<-|[]].
      eexists. cbn [Js.set Js.get]. rewrite !lookup_assign. reflexivity.
Qed.

Lemma ollama_output_member
  (C : Context) (E : Host) (messages out : list JsValue) (m : JsValue) :
  fairOrder E ->
  Ollama.makeMessages C E messages = Ok out ->
  In m out ->
  exists result message p,
    OpenAI_makeMessages E messages = Ok result /\ In message result /\
    Ollama.processMessage C E message = Ok p /\
    In m (Ollama.atOnce p ++ Ollama.afterAwait p).
Proof.
  intros Hfair. unfold Ollama.makeMessages.
  destruct (OpenAI_makeMessages E messages) as [result|e]; cbn [bind];
    [|discriminate].
  destruct (mapM (Ollama.processMessage C E) result) as [pushed|e] eqn:Hpushed;
    cbn [bind]; [|discriminate].
  intros H Hin. injection H as <-.
  assert (Hp : exists p, In p pushed /\
                         In m (Ollama.atOnce p ++ Ollama.afterAwait p)).
  { apply in_app_or in Hin. destruct Hin as [Hin|Hin].
    - apply in_flat_map in Hin. destruct Hin as [p [Hp Hm]].
      exists p. split; [exact Hp | apply in_or_app; left; exact Hm].
    - apply (Permutation_in _ (Permutation_sym (Hfair _))) in Hin.
      apply in_flat_map in Hin. destruct Hin as [p [Hp Hm]].
      exists p. split; [exact Hp | apply in_or_app; right; exact Hm]. }
  destruct Hp as [p [Hp Hm]].
  destruct (mapM_In_inv _ _ _ p Hpushed Hp) as [message [Hmessage Hrun]].
  exists result, message, p. repeat split; assumption.
Qed.

(** Every message that the Ollama [makeMessages] returns has a string as
    content: a message with an array is flattened, and a message with any
    other content, or none, is left out. *)
Theorem ollama_messages_have_string_content
  (C : Context) (E : Host) (messages out : list JsValue) :
  fairOrder E ->
  Ollama.makeMessages C E messages = Ok out ->
  Forall (fun m => exists s, Js.get m "content" = JStr s) out.
Proof.
  intros Hfair Hrun. apply Forall_forall. intros m Hin.
  destruct (ollama_output_member C E messages out m Hfair Hrun Hin)
    as [result [message [p [_ [_ [Hp Hm]]]]]].
  exact (ollama_pushed_string_content C E message m p Hp Hm).
Qed.

Lemma ollama_messages_have_string_content_witness :
  Forall (fun m => exists s, Js.get m "content" = JStr s)
    [JObj [("role", JStr "system"); ("content", JStr "be brief")];
     JObj [("role", JStr "user");
           ("content", JStr ("what is this" ++ nl3 ++ "in one word")%string);
           ("images", JUndefined)]].
Proof.
  exact (ollama_messages_have_string_content (Sample.context false false)
           Sample.host Sample.conversation _
           (fun l => Permutation_refl l) eq_refl).
Defined.

Lemma ollama_tool_call_head
  (E : Host) (tool : ITool) (toolResult assistant : JsValue)
  (others : list JsValue) :
  Ollama.makeToolMessages E tool toolResult = Ok (assistant :: others) ->
  assistant =
    JObj [("role", JStr "assistant");
          ("tool_calls",
           JArr [JObj [("id", JStr (id tool));
                       ("type", JStr "function");
                       ("function",
                        JObj [("arguments", args tool);
                              ("name", JStr (name tool))])]])].
Proof.
  unfold Ollama.makeToolMessages.
  destruct (Js.prop toolResult "isError") as [isError|e]; cbn [bind];
    [|discriminate].
  match goal with
  | |- context [bind (if ?c then ?a else ?b) _] =>
      destruct (if c then a else b) as [[toolContent [supplement|]]|e]
  end; cbn [bind]; try discriminate;
    intros H; injection H as <- _; reflexivity.
Qed.

(** The assistant message that the Ollama [makeToolMessages] builds for a
    tool call has no content, so the Ollama [makeMessages] does not push it:
    it is in no list of messages that [makeMessages] returns. *)
Theorem ollama_tool_call_message_left_out
  (C : Context) (E : Host) (tool : ITool) (toolResult assistant : JsValue)
  (others messages out : list JsValue) :
  fairOrder E ->
  Ollama.makeToolMessages E tool toolResult = Ok (assistant :: others) ->
  Ollama.processMessage C E assistant = Ok Ollama.NotPushed /\
  (Ollama.makeMessages C E messages = Ok out -> ~ In assistant out).
Proof.
  intros Hfair Hmade.
  rewrite (ollama_tool_call_head E tool toolResult assistant others Hmade).
  split; [reflexivity|].
  intros Hrun Hin.
  destruct (ollama_output_member C E messages out _ Hfair Hrun Hin)
    as [result [message [p [_ [_ [Hp Hm]]]]]].
  destruct (ollama_pushed_string_content C E message _ p Hp Hm) as [s Hs].
  discriminate.
Qed.

Lemma ollama_tool_call_message_left_out_witness :
  Ollama.processMessage (Sample.context false false) Sample.host
    (JObj [("role", JStr "assistant");
           ("tool_calls",
            JArr [JObj [("id", JStr "toolu_01");
                        ("type", JStr "function");
                        ("function",
                         JObj [("arguments", args Sample.tool);
                               ("name", JStr "fs--read_file")])]])])
    = Ok Ollama.NotPushed.
Proof.
  exact (proj1 (ollama_tool_call_message_left_out
                  (Sample.context false false) Sample.host Sample.tool
                  Sample.textResult _ _ [] []
                  (fun l => Permutation_refl l) eq_refl)).
Defined.

(** A conversation in which every message has a string as content goes
    through the Ollama [makeMessages] unchanged, with or without vision. *)
Theorem ollama_plain_conversation_unchanged
  (C : Context) (E : Host) (messages result : list JsValue) :
  fairOrder E ->
  OpenAI_makeMessages E messages = Ok result ->
  Forall (fun m => exists s, Js.get m "content" = JStr s) result ->
  Ollama.makeMessages C E messages = Ok result.
Proof.
  intros Hfair Hsuper Hplain. unfold Ollama.makeMessages.
  rewrite Hsuper. cbn [bind].
  rewrite (mapM_pure _ Ollama.PushedAtOnce).
  - cbn [bind].
    assert (Hnow : flat_map Ollama.atOnce (map Ollama.PushedAtOnce result)
                   = result).
    { clear. induction result as [|m r IH]; simpl; [|rewrite IH]; reflexivity. }
    assert (Hlater : flat_map Ollama.afterAwait
                       (map Ollama.PushedAtOnce result) = []).
    { clear. induction result as [|m r IH]; simpl; [|rewrite IH]; reflexivity. }
    rewrite Hnow, Hlater, (Permutation_nil (Hfair [])), app_nil_r.
    reflexivity.
  - intros m Hin. rewrite Forall_forall in Hplain.
    destruct (Hplain m Hin) as [s Hs].
    unfold Ollama.processMessage.
    destruct (get_defined_is_object m "content"
                ltac:(rewrite Hs; discriminate)) as [fs ->].
    change (Js.prop (JObj fs) "content") with (Ok (Js.get (JObj fs) "content")).
    cbn [bind]. rewrite Hs. reflexivity.
Qed.

Lemma ollama_plain_conversation_unchanged_witness :
  Ollama.makeMessages (Sample.context true false) Sample.host
    [JObj [("role", JStr "system"); ("content", JStr "be brief")];
     JObj [("role", JStr "user"); ("content", JStr "hello")]] =
    Ok [JObj [("role", JStr "system"); ("content", JStr "be brief")];
        JObj [("role", JStr "user"); ("content", JStr "hello")]].
Proof.
  refine (ollama_plain_conversation_unchanged (Sample.context true false)
            Sample.host _ _ (fun l => Permutation_refl l) eq_refl _).
  repeat constructor; eexists; reflexivity.
Defined.

(** Under vision the messages with string content are pushed first: the
    output of [makeMessages] starts with them, in the order they came in,
    and all the messages that had array content, which now carry an
    [images] field, follow, wherever among the others they came in. *)
Theorem ollama_vision_string_messages_first
  (C : Context) (E : Host) (messages result out : list JsValue) :
  fairOrder E ->
  visionEnabled C = true ->
  OpenAI_makeMessages E messages = Ok result ->
  Ollama.makeMessages C E messages = Ok out ->
  exists later,
    out = filter (fun m => Js.isString (Js.get m "content")) result ++ later /\
    Forall (fun m => Js.has m "images" = true) later.
Proof.
  intros Hfair Hvision Hsuper. unfold Ollama.makeMessages.
  rewrite Hsuper. cbn [bind].
  destruct (mapM (Ollama.processMessage C E) result) as [pushed|e] eqn:Hpushed;
    cbn [bind]; [|discriminate].
  intros H. injection H as <-.
  exists (completionOrder E (flat_map Ollama.afterAwait pushed)).
  assert (Hboth :
            flat_map Ollama.atOnce pushed
              = filter (fun m => Js.isString (Js.get m "content")) result /\
            Forall (fun m => Js.has m "images" = true)
                   (flat_map Ollama.afterAwait pushed)).
  { clear Hsuper. revert pushed Hpushed. induction result as [|message r IH];
      intros pushed Hpushed; cbn [mapM] in Hpushed.
    - injection Hpushed as <-. split; [reflexivity | constructor].
    - destruct (Ollama.processMessage C E message) as [p|e] eqn:Hp;
        cbn [bind] in Hpushed; [|discriminate].
      destruct (mapM (Ollama.processMessage C E) r) as [ps|e];
        cbn [bind] in Hpushed; [|discriminate].
      injection Hpushed as <-. destruct (IH ps eq_refl) as [IHnow IHlater].
      cbn [flat_map filter]. rewrite IHnow.
      unfold Ollama.processMessage in Hp.
      destruct (Js.prop message "content") as [content|e] eqn:Hprop;
        cbn [bind] in Hp; [|discriminate].
      destruct (prop_inv _ _ _ Hprop) as [_ ->].
      destruct (Js.get message "content") as [| | | |s|parts|] eqn:Hcontent.
      1-4,7: (injection Hp as <-; split; [reflexivity | exact IHlater]).
      + injection Hp as <-. split; [reflexivity | exact IHlater].
      + destruct (get_defined_is_object message "content"
                    ltac:(rewrite Hcontent; discriminate)) as [fs ->].
        destruct (filterM _ parts) as [textParts|e]; cbn [bind] in Hp;
          [|discriminate].
        destruct (mapM Ollama.imagesOfItem parts) as [imgs|e];
          cbn [bind] in Hp; [|discriminate].
        rewrite Hvision in Hp.
        destruct (mapM (Ollama.encodeImage E) (concat imgs)) as [encoded|e];
          cbn [bind] in Hp; [|discriminate].
        injection Hp as <-. split; [reflexivity|].
        cbn [Ollama.afterAwait app]. constructor; [|exact IHlater].
        cbn [Js.set Js.has]. rewrite hasKey_assign, String.eqb_refl.
        apply orb_true_r. }
  destruct Hboth as [Hnow Hlater]. rewrite Hnow. split; [reflexivity|].
  exact (Permutation_Forall (Hfair _) Hlater).
Qed.

Lemma ollama_vision_string_messages_first_witness :
  exists later,
    [JObj [("role", JStr "assistant"); ("content", JStr "they differ")];
     JObj [("role", JStr "user");
           ("content", JStr "compare these");
           ("images", JArr [JStr "CCCC"; JStr "BBBB"])]] =
    filter (fun m => Js.isString (Js.get m "content"))
      [Sample.pictures;
       JObj [("role", JStr "assistant"); ("content", JStr "they differ")]]
    ++ later /\
    Forall (fun m => Js.has m "images" = true) later.
Proof.
  exact (ollama_vision_string_messages_first (Sample.context true false)
           Sample.host
           [Sample.pictures;
            JObj [("role", JStr "assistant"); ("content", JStr "they differ")]]
           _ _ (fun l => Permutation_refl l) eq_refl eq_refl eq_refl).
Defined.

(** ** The Ollama adapter: prompts *)

(** What the Ollama [convertPromptContent] returns always has a string as
    content, with or without vision, and its [images] field, when it has
    one, is an array that is not empty. *)
Theorem ollama_prompt_result_shape (C : Context) (E : Host) (content : string) :
  (exists text,
     Js.get (Ollama.convertPromptContent C E content) "content" = JStr text)
  /\
  (Js.has (Ollama.convertPromptContent C E content) "images" = true ->
   exists images,
     Js.get (Ollama.convertPromptContent C E content) "images" = JArr images
     /\ images <> []).
Proof.
  unfold Ollama.convertPromptContent.
  destruct (visionEnabled C).
  2:{ split; [eexists; reflexivity | discriminate]. }
  set (texts := String.concat nl _).
  assert (Hor : exists text, Js.or (JStr texts) (JStr "") = JStr text).
  { unfold Js.or. destruct (Js.truthy (JStr texts)); eexists; reflexivity. }
  destruct Hor as [text ->].
  match goal with
  | |- context [if (0 <? List.length ?remote)%nat then _ else _] =>
      destruct (0 <? List.length remote)%nat
  end.
  - match goal with
    | |- context [if (0 <? List.length ?valid)%nat then _ else _] =>
        destruct (0 <? List.length valid)%nat eqn:Hvalid
    end.
    + split; [eexists; reflexivity|]. intros _. eexists.
      split; [reflexivity|].
      intros Hnil. apply app_eq_nil in Hnil. destruct Hnil as [_ Hnil].
      rewrite Hnil in Hvalid. discriminate.
    + split; [eexists; reflexivity | discriminate].
  - match goal with
    | |- context [if (0 <? List.length ?local)%nat then _ else _] =>
        destruct (0 <? List.length local)%nat eqn:Hlocal
    end.
    + split; [eexists; reflexivity|]. intros _. eexists.
      split; [reflexivity|].
      intros Hnil. rewrite Hnil in Hlocal. discriminate.
    + split; [eexists; reflexivity | discriminate].
Qed.

Lemma ollama_prompt_result_shape_witness :
  exists images,
    Js.get (Ollama.convertPromptContent (Sample.context true false)
              Sample.host Sample.promptText) "images" = JArr images
    /\ images <> [].
Proof.
  exact (proj2 (ollama_prompt_result_shape (Sample.context true false)
                  Sample.host Sample.promptText) eq_refl).
Defined.

(** The images of a prompt under vision.  With no remote image in the
    prompt the result holds the inline images, and has no [images] field
    when there is none.  With remote images of which none can be fetched
    the result has no [images] field, whatever inline images the prompt
    has. *)
Theorem ollama_prompt_images_without_fetch
  (C : Context) (E : Host) (content : string) :
  visionEnabled C = true ->
  (filter (fun item => isStr (item_dataType item) "URL")
          (splitByImg E content) = [] ->
   (Claimed.inlineImages (splitByImg E content) = [] ->
    Js.has (Ollama.convertPromptContent C E content) "images" = false)
   /\
   (Claimed.inlineImages (splitByImg E content) <> [] ->
    Js.get (Ollama.convertPromptContent C E content) "images" =
      JArr (Claimed.inlineImages (splitByImg E content))))
  /\
  (filter (fun item => isStr (item_dataType item) "URL")
          (splitByImg E content) <> [] ->
   Claimed.fetchedImages E (splitByImg E content) = [] ->
   Js.has (Ollama.convertPromptContent C E content) "images" = false).
Proof.
  intros Hvision. unfold Ollama.convertPromptContent, Claimed.fetchedImages.
  rewrite Hvision, ollama_valid_images, ollama_local_images.
  set (items := splitByImg E content).
  set (texts := String.concat nl _).
  assert (Hor : exists text, Js.or (JStr texts) (JStr "") = JStr text).
  { unfold Js.or. destruct (Js.truthy (JStr texts)); eexists; reflexivity. }
  destruct Hor as [text ->].
  set (remote := filter (fun item => isStr (item_dataType item) "URL") items).
  split.
  - intros ->. cbn [List.length Nat.ltb Nat.leb]. split.
    + intros ->. reflexivity.
    + intros Hinline.
      destruct (Claimed.inlineImages items) as [|i r];
        [contradiction | reflexivity].
  - intros Hremote Hfetched. rewrite Hfetched.
    destruct remote; [contradiction | reflexivity].
Qed.

Lemma ollama_prompt_images_without_fetch_witness :
  Js.has (Ollama.convertPromptContent (Sample.context true false)
            Sample.host "just text") "images" = false.
Proof.
  exact (proj1 (proj1 (ollama_prompt_images_without_fetch
                         (Sample.context true false) Sample.host "just text"
                         eq_refl) eq_refl) eq_refl).
Defined.

(** ** The DeepSeek adapter *)

Lemma lookup_assign_other (k k' : string) (v : JsValue)
  (fs : list (string * JsValue)) :
  String.eqb k' k = false ->
  Js.lookup k' (Js.assign k v fs) = Js.lookup k' fs.
Proof.
  intros H. rewrite lookup_assign, H. reflexivity.
Qed.

(** What the DeepSeek [makeMessages] does to a message it keeps: it changes
    the content and nothing else.  The role, the tool calls, the tool call
    id and every other field are those of the message that came in. *)
Theorem deepseek_only_content_changes
  (msg out : JsValue) (key : string) :
  DeepSeek.formatMessage msg = Ok out ->
  Js.truthy out = true ->
  key <> "content" ->
  Js.get out key = Js.get msg key /\ Js.has out key = Js.has msg key.
Proof.
  unfold DeepSeek.formatMessage.
  destruct (Js.prop msg "content") as [content|e] eqn:Hprop; cbn [bind];
    [|discriminate].
  destruct (prop_inv _ _ _ Hprop) as [_ ->].
  destruct (Js.get msg "content") as [| | | |s|parts|] eqn:Hcontent;
    try (intros H; injection H as <-; discriminate).
  - intros H _ _. injection H as <-. split; reflexivity.
  - destruct (mapM _ parts) as [texts|e]; cbn [bind]; [|discriminate].
    intros H _ Hkey. injection H as <-.
    destruct (get_defined_is_object msg "content"
                ltac:(rewrite Hcontent; discriminate)) as [fs ->].
    assert (Hne : String.eqb key "content" = false).
    { destruct (String.eqb_spec key "content"); [contradiction | reflexivity]. }
    cbn [Js.set Js.get Js.has].
    rewrite lookup_assign_other, hasKey_assign, Hne by exact Hne.
    split; [reflexivity | apply orb_false_r].
Qed.

Lemma deepseek_only_content_changes_witness :
  Js.get (JObj [("role", JStr "user"); ("content", JStr "a"); ("name", JStr "n")])
         "role"
  = Js.get (JObj [("role", JStr "user");
                  ("content", JArr [JObj [("type", JStr "text");
                                          ("text", JStr "a")]]);
                  ("name", JStr "n")]) "role".
Proof.
  exact (proj1 (deepseek_only_content_changes
                  (JObj [("role", JStr "user");
                         ("content", JArr [JObj [("type", JStr "text");
                                                 ("text", JStr "a")]]);
                         ("name", JStr "n")])
                  _ "role" eq_refl eq_refl ltac:(discriminate))).
Defined.

(** Formatting is idempotent: every message that the DeepSeek
    [makeMessages] returns is left as it is by the formatting step, so
    formatting the output again gives the output. *)
Theorem deepseek_output_is_stable
  (E : Host) (messages out : list JsValue) :
  DeepSeek.makeMessages E messages = Ok out ->
  mapM DeepSeek.formatMessage out = Ok out /\ filter Js.truthy out = out.
Proof.
  unfold DeepSeek.makeMessages.
  destruct (OpenAI_makeMessages E messages) as [result|e]; cbn [bind];
    [|discriminate].
  destruct (mapM DeepSeek.formatMessage result) as [formated|e] eqn:Hmap;
    cbn [bind]; [|discriminate].
  intros H. injection H as <-.
  assert (Hkept : Forall (fun m => DeepSeek.formatMessage m = Ok m /\
                                   Js.truthy m = true)
                         (filter Js.truthy formated)).
  { apply Forall_forall. intros m Hin. apply filter_In in Hin.
    destruct Hin as [Hin Htruthy].
    destruct (mapM_In_inv _ _ _ m Hmap Hin) as [msg [_ Hfmt]].
    destruct (deepseek_formatMessage_string msg m Hfmt Htruthy) as [s Hs].
    split; [|exact Htruthy].
    unfold DeepSeek.formatMessage.
    destruct (get_defined_is_object m "content"
                ltac:(rewrite Hs; discriminate)) as [fs ->].
    change (Js.prop (JObj fs) "content") with (Ok (Js.get (JObj fs) "content")).
    cbn [bind]. rewrite Hs. reflexivity. }
  induction Hkept as [|m r [Hm Ht] _ [IH1 IH2]].
  - split; reflexivity.
  - split.
    + cbn [mapM]. rewrite Hm, IH1. reflexivity.
    + cbn [filter]. rewrite Ht, IH2. reflexivity.
Qed.

Lemma deepseek_output_is_stable_witness :
  mapM DeepSeek.formatMessage
    [JObj [("role", JStr "system"); ("content", JStr "be brief")];
     JObj [("role", JStr "user");
           ("content",
            JStr ("what is this" ++ nl ++ nl ++ "in one word")%string)]] =
    Ok [JObj [("role", JStr "system"); ("content", JStr "be brief")];
        JObj [("role", JStr "user");
              ("content",
               JStr ("what is this" ++ nl ++ nl ++ "in one word")%string)]].
Proof.
  exact (proj1 (deepseek_output_is_stable Sample.host Sample.conversation _
                  eq_refl)).
Defined.

(** ** The resource callback *)

Lemma prefix_split (p s : string) :
  String.prefix p s = true -> exists t, s = (p ++ t)%string.
Proof.
  revert s. induction p as [|a p IH]; intros s H.
  - exists s. reflexivity.
  - destruct s as [|b s]; simpl in H; [discriminate|].
    destruct (Ascii.ascii_dec a b) as [->|]; [|discriminate].
    destruct (IH s H) as [t ->]. exists t. reflexivity.
Qed.

Lemma append_empty_r (s : string) : (s ++ "")%string = s.
Proof.
  induction s as [|c s IH]; simpl; [|rewrite IH]; reflexivity.
Qed.

Lemma append_assoc (a b c : string) :
  ((a ++ b) ++ c)%string = (a ++ (b ++ c))%string.
Proof.
  induction a as [|x a IH]; simpl; [|rewrite IH]; reflexivity.
Qed.

(** The first piece of a split: it ends where the separator first occurs. *)
Lemma splitFrom_first (sep cur s : string) :
  exists key after rest,
    Js.splitFrom sep 0 cur s = (cur ++ key)%string :: rest /\
    s = (key ++ after)%string /\
    (after = "" \/ String.prefix sep after = true) /\
    (forall a b, key = (a ++ b)%string -> b <> "" ->
                 String.prefix sep (b ++ after) = false).
Proof.
  revert cur. induction s as [|c r IH]; intros cur.
  - exists "", "", []. cbn [Js.splitFrom]. rewrite append_empty_r.
    repeat split; [left; reflexivity|].
    intros a b Hkey Hb. destruct a; destruct b; simpl in Hkey;
      try discriminate. contradiction.
  - cbn [Js.splitFrom].
    destruct (String.prefix sep (String c r)) eqn:Hsep.
    + exists "", (String c r). eexists. rewrite append_empty_r.
      repeat split; [right; exact Hsep|].
      intros a b Hkey Hb. destruct a; destruct b; simpl in Hkey;
        try discriminate. contradiction.
    + destruct (IH (cur ++ String c "")%string)
        as [key [after [rest [Hsplit [Hs [Hafter Hfirst]]]]]].
      exists (String c key), after, rest.
      rewrite Hsplit, append_assoc. cbn [append].
      repeat split; [rewrite Hs; reflexivity | exact Hafter |].
      intros a b Hkey Hb. destruct a as [|x a]; cbn [append] in Hkey.
      * subst b. cbn [append]. rewrite <- Hs. exact Hsep.
      * injection Hkey as _ Hkey. exact (Hfirst a b Hkey Hb).
Qed.

(** The callback that both adapters hand to the converter reads the
    resource from the server whose key is the name of the tool up to its
    first [--], the whole name when it has none.  A read that reports an
    error resolves to the empty list. *)
Theorem resource_server_key (E : Host) (tool : ITool) (uri : string) :
  exists key after,
    name tool = (key ++ after)%string /\
    (after = "" \/ String.prefix "--" after = true) /\
    (forall a b, key = (a ++ b)%string -> b <> "" ->
                 String.prefix "--" (b ++ after) = false) /\
    resolveResource E tool uri =
      (result <- readResource E (JStr key) uri ;;
       isError <- Js.prop result "isError" ;;
       if Js.truthy isError then Ok (JArr [])
       else Ok (Js.get result "contents")).
Proof.
  destruct (splitFrom_first "--" "" (name tool))
    as [key [after [rest [Hsplit [Hname [Hafter Hfirst]]]]]].
  exists key, after. repeat split; try assumption.
  unfold resolveResource, Js.split. rewrite Hsplit. reflexivity.
Qed.

Lemma resource_server_key_witness :
  resolveResource Sample.host Sample.tool "file:///a.txt" = Ok (JArr []) /\
  Js.at_ (Js.split "--" (name Sample.tool)) 0 = JStr "fs".
Proof.
  destruct (resource_server_key Sample.host Sample.tool "file:///a.txt")
    as [key [after [_ [_ [_ Hrun]]]]].
  split; [|reflexivity]. rewrite Hrun. reflexivity.
Defined.

(** A converted block that is [null] makes the test of the blocks throw, in
    both adapters: no message is produced. *)
Example null_converted_block_throws :
  Anthropic.makeToolMessages Structured.nullConverter Sample.tool
    Sample.textResult None = Throw "TypeError" /\
  Ollama.makeToolMessages Structured.nullConverter Sample.tool
    Sample.textResult = Throw "TypeError".
Proof. split; reflexivity. Qed.
